(** * TaskManagerApp: the task resource handlers of [src/server/app.js]

    A shallow embedding of the five route handlers and of
    [transformTaskDocument].  Request bodies and stored documents are
    JavaScript objects, modelled as finite maps from property names to
    JavaScript values.  The task collection is the list of its documents in
    the storage engine's natural (insertion) order, and every handler is a
    function from the collection before the request to the response and the
    collection after it.

    The handlers use three things that the file imports and does not
    define: the driver's [ObjectId] class, the clock behind [new Date()] and
    the collection methods of the storage engine.  [ObjectId] is an
    interface, the class [Driver]; each clock reading and each generated
    identifier is an argument of the handler that consumes it; and the
    collection methods are modelled on an in-memory collection.  A write
    stores the values handed to it as the driver serialises them, with
    [undefined] written as [null]; an equality filter on a field matches
    the value and the arrays that hold it.  The calls on the collection
    are modelled as served: a lost connection is not modelled, so the
    properties describe the requests that the storage engine serves. *)

From Stdlib Require Import ZArith Floats.SpecFloat.
From stdpp Require Import gmap strings list fin_maps.

Set Warnings "-register-all".

(** ** JavaScript values *)

Inductive value {ObjectId : Type} : Type :=
  | VUndefined
  | VNull
  | VBool (b : bool)
  | VNumber (x : spec_float)
  | VString (s : string)
  | VDate (t : Z)
  | VObjectId (o : ObjectId)
  | VArray (l : list value)
  | VObject (d : gmap string value).

(** An [Error] object; the handlers read nothing but its [message]. *)
Record exn : Type := Error { message : string }.

(** ** The driver's identifier class and the runtime's errors *)

Class Driver (ObjectId : Type) : Type := {
  ObjectId_eq_dec :: EqDecision ObjectId;
  (** [new ObjectId(id)] on a string: the identifier, or the error thrown. *)
  ObjectId_new : string -> exn + ObjectId;
  (** [ObjectId.prototype.toString]. *)
  ObjectId_toString : ObjectId -> string;
  (** [toString] of numbers, dates, arrays and plain objects. *)
  host_toString : @value ObjectId -> string;
  (** The [TypeError] of reading [toString] of [undefined]. *)
  undefined_access : exn;
  (** The [TypeError] of reading [toString] of [null]. *)
  null_access : exn;
  (** The error of the unique index on [_id] when a key is inserted twice. *)
  duplicate_key : ObjectId -> exn
}.

Section Model.

Context `{Driver ObjectId}.

Abbreviation value := (@value ObjectId) (only parsing).

(** Property read [o.k]: a missing property reads as [undefined]. *)
Definition get (o : gmap string value) (k : string) : value :=
  default VUndefined (o !! k).

(** [ToBoolean]: the falsy values are [undefined], [null], [false], [0],
    [-0], [NaN] and the empty string. *)
Definition truthy (v : value) : bool :=
  match v with
  | VUndefined | VNull => false
  | VBool b => b
  | VNumber (S754_zero _) | VNumber S754_nan => false
  | VNumber _ => true
  | VString s => negb (String.eqb s "")
  | VDate _ | VObjectId _ | VArray _ | VObject _ => true
  end.

(** [a || b]. *)
Definition or_else (a b : value) : value := if truthy a then a else b.

(** [v !== undefined]. *)
Definition is_defined (v : value) : bool :=
  match v with VUndefined => false | _ => true end.

(** [v === s] for a string literal [s]. *)
Definition strict_eq_string (v : value) (s : string) : bool :=
  match v with VString s' => String.eqb s' s | _ => false end.

(** [v.toString()]. *)
Definition toString (v : value) : exn + string :=
  match v with
  | VUndefined => inl undefined_access
  | VNull => inl null_access
  | VBool true => inr "true"
  | VBool false => inr "false"
  | VString s => inr s
  | VObjectId o => inr (ObjectId_toString o)
  | VNumber _ | VDate _ | VArray _ | VObject _ => inr (host_toString v)
  end.

(** ** transformTaskDocument *)

Definition transformTaskDocument (doc : value) : exn + value :=
  if negb (truthy doc) then inr VNull
  else
    match doc with
    | VObject d =>
        (* const task = { ...doc }; task.id = doc._id.toString(); *)
        match toString (get d "_id") with
        | inr s => inr (VObject (<["id" := VString s]> d))
        | inl e => inl e
        end
    | _ => inl undefined_access (* no [_id] property on a primitive *)
    end.

(** ** The storage engine *)

Definition collection : Type := list (gmap string value).

(** A computation over the collection that may throw. *)
Definition M (A : Type) : Type := collection -> (exn + A) * collection.

Definition ret {A} (a : A) : M A := fun c => (inr a, c).

Definition throw {A} (e : exn) : M A := fun c => (inl e, c).

Definition bind {A B} (m : M A) (k : A -> M B) : M B :=
  fun c =>
    match m c with
    | (inr a, c') => k a c'
    | (inl e, c') => (inl e, c')
    end.

Definition lift {A} (r : exn + A) : M A :=
  match r with inr a => ret a | inl e => throw e end.

Notation "'let*' x ':=' m 'in' k" := (bind m (fun x => k))
  (at level 10, x name, m at level 100, k at level 200).

(** The query documents the handlers build: [{}], [{ complete: b }] and
    [{ _id: o }]. *)
Inductive query : Type :=
  | QAll
  | QComplete (b : bool)
  | QId (o : ObjectId).

(** [v] is the boolean [b]. *)
Definition is_bool (b : bool) (v : value) : bool :=
  match v with VBool b' => Bool.eqb b' b | _ => false end.

(** An equality filter on a field matches the value itself and an array
    that holds the value as an element. *)
Definition matches (q : query) (d : gmap string value) : bool :=
  match q with
  | QAll => true
  | QComplete b =>
      match d !! "complete" with
      | Some (VBool b') => Bool.eqb b' b
      | Some (VArray l) => existsb (is_bool b) l
      | _ => false
      end
  | QId o =>
      match d !! "_id" with
      | Some (VObjectId o') => bool_decide (o' = o)
      | _ => false
      end
  end.

(** The driver's serialisation of a field on a write: with
    [ignoreUndefined] off, its default, [undefined] is written as [null].
    Request bodies come from JSON and hold no [undefined] below a field. *)
Definition bson_value (v : value) : value :=
  match v with VUndefined => VNull | _ => v end.

(** [find(q).toArray()]. *)
Definition find (q : query) : M (list (gmap string value)) :=
  fun c => (inr (List.filter (matches q) c), c).

(** [findOne(q)]: the first match, or [null]. *)
Definition findOne (q : query) : M value :=
  fun c =>
    (inr (match List.find (matches q) c with
          | Some d => VObject d
          | None => VNull
          end), c).

(** [insertOne(d)] for a document without [_id]: the driver assigns the
    generated key [fresh]; the unique index on [_id] rejects a key that is
    already there.  The result is [insertedId]. *)
Definition insertOne (d : gmap string value) (fresh : ObjectId) : M ObjectId :=
  fun c =>
    if existsb (matches (QId fresh)) c
    then (inl (duplicate_key fresh), c)
    else (inr fresh, c ++ [<["_id" := VObjectId fresh]> (bson_value <$> d)]).

(** The first match replaced by its image under [f]; [None] without a
    match. *)
Fixpoint update_first (q : query) (f : gmap string value -> gmap string value)
    (c : collection) : option (gmap string value * collection) :=
  match c with
  | [] => None
  | d :: c' =>
      if matches q d then Some (f d, f d :: c')
      else
        match update_first q f c' with
        | Some (d', c'') => Some (d', d :: c'')
        | None => None
        end
  end.

(** [findOneAndUpdate(q, { $set: s }, { returnDocument: "after" })]: the
    fields of [s], as serialised, overwrite those of the first match; the
    result is the document after the update, or [null]. *)
Definition findOneAndUpdate (q : query) (s : gmap string value) : M value :=
  fun c =>
    match update_first q (fun d => (bson_value <$> s) ∪ d) c with
    | Some (d', c') => (inr (VObject d'), c')
    | None => (inr VNull, c)
    end.

(** The collection without its first match; [None] without a match. *)
Fixpoint remove_first (q : query) (c : collection) : option collection :=
  match c with
  | [] => None
  | d :: c' =>
      if matches q d then Some c'
      else
        match remove_first q c' with
        | Some c'' => Some (d :: c'')
        | None => None
        end
  end.

(** [deleteOne(q)]: the result is [deletedCount]. *)
Definition deleteOne (q : query) : M Z :=
  fun c =>
    match remove_first q c with
    | Some c' => (inr 1%Z, c')
    | None => (inr 0%Z, c)
    end.

(** ** Responses *)

(** [body] is the value handed to [res.json]. *)
Record response : Type := Response { status : Z; body : value }.

Definition res_json (st : Z) (v : value) : M response :=
  ret (Response st v).

Definition error_body (msg : string) : value :=
  VObject {[ "error" := VString msg ]}.

Definition not_found (id : string) : string :=
  "Task with ID " +:+ id +:+ " not found".

(** [try { ... } catch (error) { res.status(500).json({ error: error.message }) }]. *)
Definition try_catch (m : M response) (c : collection) : response * collection :=
  match m c with
  | (inr r, c') => (r, c')
  | (inl e, c') => (Response 500 (error_body (message e)), c')
  end.

(** [tasks.map((task) => transformTaskDocument(task))]. *)
Fixpoint map_transform (l : list value) : exn + list value :=
  match l with
  | [] => inr []
  | v :: l' =>
      match transformTaskDocument v with
      | inl e => inl e
      | inr t =>
          match map_transform l' with
          | inl e => inl e
          | inr ts => inr (t :: ts)
          end
      end
  end.

(** ** The route handlers *)

(** [GET /api/tasks]; [complete] is [req.query.complete]. *)
Definition get_api_tasks (complete : value) : collection -> response * collection :=
  try_catch (
    let q :=
      if is_defined complete
      then QComplete (strict_eq_string complete "true")
      else QAll in
    let* tasks := find q in
    let* transformedTasks := lift (map_transform (List.map VObject tasks)) in
    res_json 200 (VArray transformedTasks)).

(** [GET /api/tasks/:id]. *)
Definition get_api_tasks_id (id : string) : collection -> response * collection :=
  try_catch (
    let* objectId := lift (ObjectId_new id) in
    let* task := findOne (QId objectId) in
    if negb (truthy task)
    then res_json 404 (error_body (not_found id))
    else
      let* transformedTask := lift (transformTaskDocument task) in
      res_json 200 transformedTask).

(** [POST /api/tasks]; [t_created] and [t_updated] are the readings of the
    two [new Date()], [fresh] the key the driver generates. *)
Definition post_api_tasks (req_body : gmap string value) (t_created t_updated : Z)
    (fresh : ObjectId) : collection -> response * collection :=
  try_catch (
    let title := get req_body "title" in
    let description := get req_body "description" in
    let complete := get req_body "complete" in
    if negb (truthy title)
    then res_json 400 (error_body "Title is required")
    else
      let task : gmap string value :=
        {[ "title" := title;
           "description" := or_else description (VString "");
           "complete" := or_else complete (VBool false);
           "createdAt" := VDate t_created;
           "updatedAt" := VDate t_updated ]} in
      let* insertedId := insertOne task fresh in
      let* insertedTask := findOne (QId insertedId) in
      res_json 201 insertedTask).

(** [PUT /api/tasks/:id]; [now] is the reading of [new Date()]. *)
Definition put_api_tasks_id (id : string) (req_body : gmap string value) (now : Z)
    : collection -> response * collection :=
  try_catch (
    let title := get req_body "title" in
    let description := get req_body "description" in
    let complete := get req_body "complete" in
    let* objectId := lift (ObjectId_new id) in
    let set : gmap string value :=
      {[ "title" := title;
         "description" := description;
         "complete" := complete;
         "updatedAt" := VDate now ]} in
    let* updatedTask := findOneAndUpdate (QId objectId) set in
    if negb (truthy updatedTask)
    then res_json 404 (error_body (not_found id))
    else
      let* transformedTask := lift (transformTaskDocument updatedTask) in
      res_json 200 transformedTask).

(** [DELETE /api/tasks/:id]. *)
Definition delete_api_tasks_id (id : string) : collection -> response * collection :=
  try_catch (
    let* objectId := lift (ObjectId_new id) in
    let* deletedCount := deleteOne (QId objectId) in
    if (deletedCount =? 0)%Z
    then res_json 404 (error_body (not_found id))
    else res_json 200 (VObject {[ "message" := VString "Task deleted successfully" ]})).

(** The requests of the five routes, with the clock readings and the
    generated key they consume. *)
Inductive request : Type :=
  | GetTasks (complete : value)
  | GetTask (id : string)
  | PostTask (req_body : gmap string value) (t_created t_updated : Z) (fresh : ObjectId)
  | PutTask (id : string) (req_body : gmap string value) (now : Z)
  | DeleteTask (id : string).

Definition handle (r : request) : collection -> response * collection :=
  match r with
  | GetTasks complete => get_api_tasks complete
  | GetTask id => get_api_tasks_id id
  | PostTask req_body t1 t2 fresh => post_api_tasks req_body t1 t2 fresh
  | PutTask id req_body now => put_api_tasks_id id req_body now
  | DeleteTask id => delete_api_tasks_id id
  end.

(** The collection after a sequence of requests, served one at a time. *)
Definition serve (rs : list request) (c : collection) : collection :=
  fold_left (fun c r => (handle r c).2) rs c.

(** The responses to a sequence of requests. *)
Fixpoint responses (rs : list request) (c : collection) : list response :=
  match rs with
  | [] => []
  | r :: rs' => (handle r c).1 :: responses rs' (handle r c).2
  end.

(** ** Invariants of the collection *)

(** The storage engine gives every document an identifier of its native key
    type, and its index on [_id] keeps the identifiers distinct. *)
Definition key (d : gmap string value) : option ObjectId :=
  match d !! "_id" with
  | Some (VObjectId o) => Some o
  | _ => None
  end.

Definition keys (c : collection) : list ObjectId := omap key c.

Definition has_key (d : gmap string value) : bool :=
  match key d with Some _ => true | None => false end.

Definition all_keyed (c : collection) : Prop := Forall (fun d => has_key d = true) c.

Definition unique_keys (c : collection) : Prop := NoDup (keys c).

(** [c] splits at its first match [d] of [q]. *)
Definition first_match (q : query) (c c1 : collection) (d : gmap string value)
    (c2 : collection) : Prop :=
  c = c1 ++ d :: c2 /\ Forall (fun x => matches q x = false) c1 /\ matches q d = true.

(** ** Specification vocabulary *)

(** [ts] lists the transforms of the documents [ds], in their order. *)
Definition transformed_as (ds : list (gmap string value)) (ts : list value) : Prop :=
  Forall2 (fun d t => transformTaskDocument (VObject d) = inr t) ds ts.

(** [v = VBool b] is decidable without an equality test on all values. *)
#[global] Instance value_is_bool_dec (v : value) (b : bool) : Decision (v = VBool b).
Proof.
  destruct v as [| |b'| | | | | |]; try (right; discriminate).
  destruct (decide (b' = b)) as [->|N]; [by left|right; congruence].
Defined.

(** The document [insertOne] stores for a create request. *)
Definition created (req_body : gmap string value) (t1 t2 : Z) (fresh : ObjectId)
    : gmap string value :=
  <["_id" := VObjectId fresh]>
    {[ "title" := get req_body "title";
       "description" := or_else (get req_body "description") (VString "");
       "complete" := or_else (get req_body "complete") (VBool false);
       "createdAt" := VDate t1;
       "updatedAt" := VDate t2 ]}.

(** A response body in the transformed shape. *)
Definition carries_id (t : value) : Prop :=
  exists m s, t = VObject m /\ m !! "id" = Some (VString s).

(** The [$set] document of an update request, as written. *)
Definition update_set (req_body : gmap string value) (now : Z) : gmap string value :=
  {[ "title" := bson_value (get req_body "title");
     "description" := bson_value (get req_body "description");
     "complete" := bson_value (get req_body "complete");
     "updatedAt" := VDate now ]}.

(** The [complete] values that the filter on [b] lists: [b] itself and the
    arrays that hold [b]. *)
Definition lists_for (b : bool) (v : value) : Prop :=
  v = VBool b \/ exists l, v = VArray l /\ VBool b ∈ l.

#[global] Instance lists_for_dec (b : bool) (v : value) : Decision (lists_for b v).
Proof.
  destruct v as [| |b'| | | | |l|];
    try (right; intros [E|(l' & E & _)]; discriminate).
  - destruct (decide (b' = b)) as [->|N]; [left; by left|].
    right. intros [E|(l' & E & _)]; [congruence|discriminate].
  - destruct (existsb (is_bool b) l) eqn:X.
    + left. right. exists l. split; [done|].
      apply existsb_exists in X as (x & I & Hx).
      destruct x; try discriminate. apply Bool.eqb_prop in Hx. subst.
      by apply list_elem_of_In.
    + right. intros [E|(l' & E & I)]; [discriminate|].
      injection E as <-. apply list_elem_of_In in I.
      assert (Y : existsb (is_bool b) l = true).
      { apply existsb_exists. exists (VBool b). split; [done|]. by destruct b. }
      congruence.
Defined.

(** [ts] lists the documents [ds], in their order, each with the added
    [id], the string form of its [_id]. *)
Definition tasks_with_id (ds : list (gmap string value)) (ts : list value) : Prop :=
  Forall2
    (fun d t =>
       exists o, d !! "_id" = Some (VObjectId o) /\
                 t = VObject (<["id" := VString (ObjectId_toString o)]> d))
    ds ts.

(** [Array.isArray(v)]. *)
Definition is_array (v : value) : bool :=
  match v with VArray _ => true | _ => false end.

(** [typeof v === "boolean"]. *)
Definition is_boolean (v : value) : bool :=
  match v with VBool _ => true | _ => false end.

End Model.

(** ** A driver to run the handlers on

    Identifiers are strings of 24 hexadecimal digits, kept in lower case.
    The documents of [sample_tasks] are keyed by such identifiers, so
    [host_toString] is never consulted on them. *)

Definition is_hex_digit (a : Ascii.ascii) : bool :=
  let n := Ascii.nat_of_ascii a in
  (Nat.leb 48 n && Nat.leb n 57) || (Nat.leb 97 n && Nat.leb n 102)
  || (Nat.leb 65 n && Nat.leb n 70).

Definition lower_hex_digit (a : Ascii.ascii) : Ascii.ascii :=
  let n := Ascii.nat_of_ascii a in
  if Nat.leb 65 n && Nat.leb n 70 then Ascii.ascii_of_nat (n + 32) else a.

Definition hex_ObjectId_new (s : string) : exn + string :=
  let digits := String.list_ascii_of_string s in
  if Nat.eqb (length digits) 24 && forallb is_hex_digit digits
  then inr (String.string_of_list_ascii (map lower_hex_digit digits))
  else inl (Error "input must be a 24 character hex string, 12 byte Uint8Array, or an integer").

#[global] Instance hex_driver : Driver string := {|
  ObjectId_new := hex_ObjectId_new;
  ObjectId_toString := fun o => o;
  host_toString := fun _ => "[object Object]";
  undefined_access := Error "Cannot read properties of undefined (reading 'toString')";
  null_access := Error "Cannot read properties of null (reading 'toString')";
  duplicate_key := fun o => Error ("E11000 duplicate key error dup key: " +:+ o)
|}.

Definition id_milk : string := "650000000000000000000001".
Definition id_eggs : string := "650000000000000000000002".
Definition id_next : string := "650000000000000000000003".

Definition task_milk : gmap string (@value string) :=
  {[ "_id" := VObjectId id_milk;
     "title" := VString "Buy milk";
     "description" := VString "two litres";
     "complete" := VBool false;
     "createdAt" := VDate 1000;
     "updatedAt" := VDate 1000 ]}.

Definition task_eggs : gmap string (@value string) :=
  {[ "_id" := VObjectId id_eggs;
     "title" := VString "Buy eggs";
     "description" := VString "";
     "complete" := VBool true;
     "createdAt" := VDate 2000;
     "updatedAt" := VDate 3000 ]}.

Definition sample_tasks : list (gmap string (@value string)) := [task_milk; task_eggs].

(** Request bodies. *)
Definition body_milk : gmap string (@value string) :=
  {[ "title" := VString "Buy milk" ]}.

Definition body_empty_title : gmap string (@value string) :=
  {[ "title" := VString ""; "complete" := VBool true ]}.

Definition body_falsy_fields : gmap string (@value string) :=
  {[ "title" := VString "Buy milk";
     "description" := VNull;
     "complete" := VNumber (S754_zero false) ]}.

Definition body_dozen : gmap string (@value string) :=
  {[ "title" := VString "Buy a dozen eggs" ]}.

Definition body_protected : gmap string (@value string) :=
  {[ "createdAt" := VDate 0; "_id" := VNull ]}.

Definition body_done : gmap string (@value string) :=
  {[ "title" := VString "Buy milk"; "complete" := VBool true ]}.

(** A body whose [complete] is an array. *)
Definition body_array : gmap string (@value string) :=
  {[ "title" := VString "Buy milk"; "complete" := VArray [VBool true] ]}.

(** A body with properties that no handler reads. *)
Definition body_with_id : gmap string (@value string) :=
  {[ "title" := VString "Buy tea"; "id" := VString "mine"; "owner" := VString "me" ]}.

(** Documents without a usable [_id]. *)
Definition task_stray : gmap string (@value string) :=
  {[ "title" := VString "stray" ]}.

Definition task_null : gmap string (@value string) :=
  {[ "_id" := VNull; "title" := VString "null key" ]}.

(** The document a create stores for [body_array], and the collection
    after that create on [sample_tasks]. *)
Definition task_array : gmap string (@value string) :=
  created body_array 5000 5001 id_next.

Definition tasks_with_array : list (gmap string (@value string)) :=
  sample_tasks ++ [task_array].

(** Create a task, read it, complete it, delete it, read it again. *)
Definition buy_milk : list (@request string) :=
  [ PostTask body_milk 5000 5001 id_next;
    GetTask id_next;
    PutTask id_next body_done 6000;
    DeleteTask id_next;
    GetTask id_next;
    GetTask "not-a-valid-id" ].

(** * Properties *)

Section Properties.

Context `{Driver ObjectId}.

Abbreviation value := (@value ObjectId) (only parsing).

Arguments matches : simpl never.
Arguments key : simpl never.

(** Unfolding a handler down to the calls on the storage engine. *)
Ltac run :=
  unfold try_catch, bind, lift, ret, throw, res_json,
    find, findOne, findOneAndUpdate, deleteOne, insertOne.

(** ** Lemmas on the storage engine *)

Lemma matches_QId o d : matches (QId o) d = true <-> d !! "_id" = Some (VObjectId o).
Proof.
  unfold matches. destruct (d !! "_id") as [[]|]; split; intros E; try discriminate.
  - apply bool_decide_eq_true in E. by subst.
  - inversion E. by apply bool_decide_eq_true.
Qed.

Lemma matches_QId_key o d : matches (QId o) d = true <-> key d = Some o.
Proof.
  rewrite matches_QId. unfold key.
  destruct (d !! "_id") as [[]|]; split; intros E; try discriminate; by inversion E.
Qed.

Lemma find_first_match q c d :
  List.find (matches q) c = Some d -> exists c1 c2, first_match q c c1 d c2.
Proof.
  induction c as [|x c IH]; simpl; [discriminate|].
  destruct (matches q x) eqn:E.
  - intros [= ->]. exists [], c. by repeat split.
  - intros F. destruct (IH F) as (c1 & c2 & -> & Hn & Hd).
    exists (x :: c1), c2. repeat split; [|done]. by constructor.
Qed.

Lemma first_match_find q c c1 d c2 :
  first_match q c c1 d c2 -> List.find (matches q) c = Some d.
Proof.
  intros (-> & Hn & Hd). induction Hn as [|x c1 Hx _ IH]; simpl.
  - by rewrite Hd.
  - by rewrite Hx.
Qed.

Lemma first_match_update q f c c1 d c2 :
  first_match q c c1 d c2 -> update_first q f c = Some (f d, c1 ++ f d :: c2).
Proof.
  intros (-> & Hn & Hd). induction Hn as [|x c1 Hx _ IH]; simpl.
  - by rewrite Hd.
  - by rewrite Hx, IH.
Qed.

Lemma first_match_remove q c c1 d c2 :
  first_match q c c1 d c2 -> remove_first q c = Some (c1 ++ c2).
Proof.
  intros (-> & Hn & Hd). induction Hn as [|x c1 Hx _ IH]; simpl.
  - by rewrite Hd.
  - by rewrite Hx, IH.
Qed.

Lemma find_none_update q f c :
  List.find (matches q) c = None -> update_first q f c = None.
Proof.
  induction c as [|x c IH]; simpl; [done|].
  destruct (matches q x); [discriminate|]. intros F. by rewrite IH.
Qed.

Lemma find_none_remove q c :
  List.find (matches q) c = None -> remove_first q c = None.
Proof.
  induction c as [|x c IH]; simpl; [done|].
  destruct (matches q x); [discriminate|]. intros F. by rewrite IH.
Qed.

Lemma find_none_existsb q c :
  List.find (matches q) c = None <-> existsb (matches q) c = false.
Proof.
  induction c as [|x c IH]; simpl; [done|].
  destruct (matches q x); simpl; [split; discriminate|done].
Qed.

Lemma find_none_keys o c :
  List.find (matches (QId o)) c = None <-> o ∉ keys c.
Proof.
  unfold keys. induction c as [|x c IH]; simpl.
  - split; [intros _; apply not_elem_of_nil|done].
  - destruct (matches (QId o) x) eqn:E.
    + apply matches_QId_key in E. rewrite E. split; [discriminate|].
      intros N. destruct N. apply elem_of_cons. by left.
    + destruct (key x) as [o'|] eqn:K; [|done].
      rewrite not_elem_of_cons, <- IH. split; [|tauto].
      intros F. split; [|done]. intros Heq. subst o'.
      apply matches_QId_key in K. congruence.
Qed.

(** The transformer on a document that carries a storage identifier. *)
Lemma transform_keyed d o :
  d !! "_id" = Some (VObjectId o) ->
  transformTaskDocument (VObject d)
  = inr (VObject (<["id" := VString (ObjectId_toString o)]> d)).
Proof. intros E. unfold transformTaskDocument, get. by rewrite E. Qed.

Lemma has_key_some (d : gmap string value) : has_key d = true -> exists o, d !! "_id" = Some (VObjectId o).
Proof.
  unfold has_key, key. destruct (d !! "_id") as [[]|]; try discriminate. eauto.
Qed.

Lemma map_transform_keyed l :
  all_keyed l ->
  exists ts, map_transform (List.map VObject l) = inr ts /\ transformed_as l ts.
Proof.
  induction 1 as [|d l Hd _ (ts & IH & F)]; simpl.
  - exists []. split; [done|constructor].
  - destruct (has_key_some d Hd) as [o E].
    rewrite (transform_keyed d o E), IH. eexists. split; [done|].
    constructor; [by apply transform_keyed|done].
Qed.

Lemma all_keyed_filter p (c : @collection ObjectId) : all_keyed c -> all_keyed (List.filter p c).
Proof.
  unfold all_keyed. rewrite !Forall_forall. intros A d Hi.
  apply list_elem_of_In, filter_In in Hi. apply A, list_elem_of_In, Hi.
Qed.

Lemma matches_complete b (d : gmap string value) :
  matches (QComplete b) d = true <-> lists_for b (get d "complete").
Proof.
  unfold matches, get, lists_for.
  destruct (d !! "complete") as [[| |b'| | | | |l|]|]; simpl;
    try (split; [discriminate|intros [E|(l' & E & _)]; discriminate]).
  - split.
    + intros E. apply Bool.eqb_prop in E. left. by subst.
    + intros [E|(l' & E & _)]; [|discriminate]. injection E as ->.
      apply Bool.eqb_reflx.
  - rewrite existsb_exists. split.
    + intros (x & I & Hx). right. exists l. split; [done|].
      destruct x; try discriminate. apply Bool.eqb_prop in Hx. subst.
      by apply list_elem_of_In.
    + intros [E|(l' & E & I)]; [discriminate|]. injection E as <-.
      exists (VBool b). split; [by apply list_elem_of_In|]. by destruct b.
Qed.

Lemma filter_complete b c :
  List.filter (matches (QComplete b)) c
  = filter (fun d => lists_for b (get d "complete")) c.
Proof.
  induction c as [|d c IH]; [done|]. cbn [List.filter]. rewrite filter_cons, IH.
  destruct (matches (QComplete b) d) eqn:E; case_decide as L; try done.
  - by apply matches_complete in E.
  - apply matches_complete in L. congruence.
Qed.

(** ** C3: get by identifier *)

(** C3. A get-by-identifier request answers 500 with the body
    [{error: <message of the parse error>}] when the identifier string
    does not parse, 404 with the body
    [{error: "Task with ID <id> not found"}] when it parses and no
    document has that identifier, and 200 with the transformed task, the
    matching document with its [id] added, when a document matches.  The
    collection is left as it was. *)
Theorem get_by_id_status (id : string) (c : collection) :
  (forall e, ObjectId_new id = inl e ->
     get_api_tasks_id id c
     = (Response 500 (VObject {[ "error" := VString (message e) ]}), c)) /\
  (forall o, ObjectId_new id = inr o -> List.find (matches (QId o)) c = None ->
     get_api_tasks_id id c
     = (Response 404
          (VObject {[ "error" := VString ("Task with ID " +:+ id +:+ " not found") ]}),
        c)) /\
  (forall o d, ObjectId_new id = inr o -> List.find (matches (QId o)) c = Some d ->
     transformTaskDocument (VObject d)
     = inr (VObject (<["id" := VString (ObjectId_toString o)]> d)) /\
     get_api_tasks_id id c
     = (Response 200 (VObject (<["id" := VString (ObjectId_toString o)]> d)), c)).
Proof.
  unfold get_api_tasks_id. run. split; [|split].
  - intros e ->. done.
  - intros o -> ->. done.
  - intros o d P F.
    destruct (find_first_match _ _ _ F) as (c1 & c2 & _ & _ & Hd).
    apply matches_QId in Hd. split; [by apply transform_keyed|].
    rewrite P, F. simpl. by rewrite (transform_keyed d o Hd).
Qed.

(** ** C6: create without a title *)

(** C6. A create request whose title is missing or falsy answers 400 with
    the body [{error: "Title is required"}] and leaves the collection as
    it was. *)
Theorem create_requires_title (req_body : gmap string value) (t1 t2 : Z)
    (fresh : ObjectId) (c : collection) :
  truthy (get req_body "title") = false ->
  post_api_tasks req_body t1 t2 fresh c
  = (Response 400 (VObject {[ "error" := VString "Title is required" ]}), c).
Proof. intros T. unfold post_api_tasks. run. by rewrite T. Qed.

(** ** C5: the document transformer *)


(** ** C4: list with the [complete] filter *)

Lemma map_transform_tasks l :
  all_keyed l ->
  exists ts, map_transform (List.map VObject l) = inr ts /\ tasks_with_id l ts.
Proof.
  induction 1 as [|d l Hd _ (ts & IH & F)]; simpl.
  - exists []. split; [done|constructor].
  - destruct (has_key_some d Hd) as [o E].
    rewrite (transform_keyed d o E), IH. eexists. split; [done|].
    constructor; [by exists o|done].
Qed.

(** C4, as amended. A list request answers 200 with the transformed tasks,
    in storage order, of exactly the documents whose [complete] field is
    [true] or an array that holds [true] when the query parameter is the
    string ["true"], of exactly those whose [complete] field is [false] or
    an array that holds [false] when the parameter is present with any
    other value, and of all documents when the parameter is absent. *)
Theorem list_filters_by_match (complete : value) (c : collection) :
  all_keyed c ->
  exists ts,
    get_api_tasks complete c = (Response 200 (VArray ts), c) /\
    (complete = VString "true" ->
       tasks_with_id (filter (fun d => lists_for true (get d "complete")) c) ts) /\
    (complete <> VUndefined -> complete <> VString "true" ->
       tasks_with_id (filter (fun d => lists_for false (get d "complete")) c) ts) /\
    (complete = VUndefined -> tasks_with_id c ts).
Proof.
  intros A. unfold get_api_tasks. run.
  set (q := if is_defined complete then _ else _).
  destruct (map_transform_tasks _ (all_keyed_filter (matches q) c A)) as (ts & E & F).
  exists ts. rewrite E. split; [done|]. repeat split.
  - intros ->. subst q. simpl in F. by rewrite filter_complete in F.
  - intros U T. subst q. rewrite <- filter_complete.
    destruct complete as [| | | |s| | | |]; simpl in F; try done.
    destruct (String.eqb s "true") eqn:S; [|done].
    apply String.eqb_eq in S. congruence.
  - intros ->. subst q. simpl in F.
    replace (List.filter (matches QAll) c) with c in F; [done|].
    clear. induction c as [|d c IH]; [done|]. simpl. by rewrite <- IH.
Qed.

(** ** C1 and C9: update *)

Lemma set_keeps (s d : gmap string value) (o : ObjectId) :
  s !! "_id" = None -> matches (QId o) d = true -> matches (QId o) (s ∪ d) = true.
Proof.
  intros N M. apply matches_QId. rewrite lookup_union_r by done. by apply matches_QId.
Qed.

Lemma update_set_keeps req_body now (d : gmap string value) o :
  matches (QId o) d = true -> matches (QId o) (update_set req_body now ∪ d) = true.
Proof. by apply set_keeps. Qed.

Lemma update_set_written req_body now :
  bson_value <$> ({[ "title" := get req_body "title";
                     "description" := get req_body "description";
                     "complete" := get req_body "complete";
                     "updatedAt" := VDate now ]} : gmap string value)
  = update_set req_body now.
Proof. unfold update_set. by rewrite !fmap_insert, map_fmap_singleton. Qed.

Lemma put_run_malformed id e req_body now c :
  ObjectId_new id = inl e ->
  put_api_tasks_id id req_body now c = (Response 500 (error_body (message e)), c).
Proof. intros P. unfold put_api_tasks_id. run. by rewrite P. Qed.

Lemma put_run_missing id o req_body now c :
  ObjectId_new id = inr o -> List.find (matches (QId o)) c = None ->
  put_api_tasks_id id req_body now c
  = (Response 404 (error_body (not_found id)), c).
Proof.
  intros P F. unfold put_api_tasks_id. run. rewrite P.
  by rewrite (find_none_update _ _ _ F).
Qed.

Lemma put_run_updated id o req_body now c c1 d c2 :
  ObjectId_new id = inr o -> first_match (QId o) c c1 d c2 ->
  put_api_tasks_id id req_body now c
  = (Response 200
       (VObject (<["id" := VString (ObjectId_toString o)]> (update_set req_body now ∪ d))),
     c1 ++ (update_set req_body now ∪ d) :: c2).
Proof.
  intros P FM. unfold put_api_tasks_id. run. rewrite P.
  rewrite (first_match_update _ _ _ _ _ _ FM). simpl.
  rewrite update_set_written.
  destruct FM as (-> & Hn & Hd).
  apply (update_set_keeps req_body now), matches_QId in Hd.
  by rewrite (transform_keyed _ o Hd).
Qed.

Lemma bson_value_defined (v : value) : v <> VUndefined -> bson_value v = v.
Proof. by destruct v. Qed.

(** C1, as amended. An update of an existing task stores, in the place of
    the task, a document whose [title], [description] and [complete] are
    the values the request body supplies; a field the body omits is stored
    as [null], whatever its value was before. *)
Theorem update_overwrites_fields (id : string) (o : ObjectId)
    (req_body : gmap string value) (now : Z) (c : collection) (d : gmap string value) :
  ObjectId_new id = inr o ->
  List.find (matches (QId o)) c = Some d ->
  exists d' c1 c2,
    c = c1 ++ d :: c2 /\
    (put_api_tasks_id id req_body now c).2 = c1 ++ d' :: c2 /\
    List.find (matches (QId o)) (c1 ++ d' :: c2) = Some d' /\
    (forall v, req_body !! "title" = Some v -> v <> VUndefined ->
       d' !! "title" = Some v) /\
    (forall v, req_body !! "description" = Some v -> v <> VUndefined ->
       d' !! "description" = Some v) /\
    (forall v, req_body !! "complete" = Some v -> v <> VUndefined ->
       d' !! "complete" = Some v) /\
    (req_body !! "title" = None -> d' !! "title" = Some VNull) /\
    (req_body !! "description" = None -> d' !! "description" = Some VNull) /\
    (req_body !! "complete" = None -> d' !! "complete" = Some VNull).
Proof.
  intros P F. destruct (find_first_match _ _ _ F) as (c1 & c2 & FM).
  exists (update_set req_body now ∪ d), c1, c2.
  rewrite (put_run_updated id o req_body now c c1 d c2 P FM).
  assert (Hd : matches (QId o) (update_set req_body now ∪ d) = true).
  { apply update_set_keeps. by destruct FM as (_ & _ & Hd). }
  split; [by destruct FM|]. split; [done|].
  split.
  { apply (first_match_find _ _ c1 _ c2). destruct FM as (_ & Hn & _). by split. }
  assert (T : (update_set req_body now ∪ d) !! "title"
              = Some (bson_value (get req_body "title")))
    by by apply lookup_union_Some_l.
  assert (D : (update_set req_body now ∪ d) !! "description"
              = Some (bson_value (get req_body "description")))
    by by apply lookup_union_Some_l.
  assert (C : (update_set req_body now ∪ d) !! "complete"
              = Some (bson_value (get req_body "complete")))
    by by apply lookup_union_Some_l.
  unfold get in T, D, C.
  repeat split.
  - intros v E N. rewrite E in T. simpl in T. by rewrite bson_value_defined in T.
  - intros v E N. rewrite E in D. simpl in D. by rewrite bson_value_defined in D.
  - intros v E N. rewrite E in C. simpl in C. by rewrite bson_value_defined in C.
  - intros E. by rewrite E in T.
  - intros E. by rewrite E in D.
  - intros E. by rewrite E in C.
Qed.

(** C9. An update leaves the [createdAt] field and the identifier of every
    stored document as they were; on an existing task it sets [updatedAt]
    to the time of the request. *)
Theorem update_frame (id : string) (req_body : gmap string value) (now : Z)
    (c : collection) :
  map (fun d => d !! "createdAt") (put_api_tasks_id id req_body now c).2
  = map (fun d => d !! "createdAt") c /\
  map (fun d => d !! "_id") (put_api_tasks_id id req_body now c).2
  = map (fun d => d !! "_id") c /\
  (forall o d, ObjectId_new id = inr o -> List.find (matches (QId o)) c = Some d ->
     exists d',
       List.find (matches (QId o)) (put_api_tasks_id id req_body now c).2 = Some d' /\
       d' !! "updatedAt" = Some (VDate now) /\
       d' !! "createdAt" = d !! "createdAt" /\
       d' !! "_id" = d !! "_id").
Proof.
  destruct (ObjectId_new id) as [e|o] eqn:P.
  { rewrite (put_run_malformed id e req_body now c P). by repeat split. }
  set (s := update_set req_body now).
  destruct (List.find (matches (QId o)) c) as [d|] eqn:F.
  - destruct (find_first_match _ _ _ F) as (c1 & c2 & FM).
    rewrite (put_run_updated id o req_body now c c1 d c2 P FM). simpl. fold s.
    destruct FM as (-> & Hn & Hd).
    assert (Hs : matches (QId o) (s ∪ d) = true) by by apply update_set_keeps.
    assert (Kc : (s ∪ d) !! "createdAt" = d !! "createdAt") by by apply lookup_union_r.
    assert (Ki : (s ∪ d) !! "_id" = d !! "_id") by by apply lookup_union_r.
    split; [by rewrite !map_app; simpl; rewrite Kc|].
    split; [by rewrite !map_app; simpl; rewrite Ki|].
    intros o' d' [= <-] F'. rewrite (first_match_find _ _ c1 d c2) in F' by done.
    injection F' as <-. exists (s ∪ d).
    split; [by apply (first_match_find _ _ c1 _ c2)|].
    split; [by apply lookup_union_Some_l|done].
  - rewrite (put_run_missing id o req_body now c P F). simpl. repeat split; try done.
    intros o' d' [= <-]. congruence.
Qed.

(** ** C7: delete *)

Lemma keys_app (c1 c2 : @collection ObjectId) : keys (c1 ++ c2) = keys c1 ++ keys c2.
Proof. unfold keys. apply omap_app. Qed.

Lemma keys_cons_keyed (d : gmap string value) o c : key d = Some o -> keys (d :: c) = o :: keys c.
Proof. intros K. unfold keys. simpl. by rewrite K. Qed.

(** Once the only document with key [o] is removed, nothing matches. *)
Lemma removed_key_gone o c c1 d c2 :
  unique_keys c -> first_match (QId o) c c1 d c2 ->
  List.find (matches (QId o)) (c1 ++ c2) = None.
Proof.
  intros U (-> & Hn & Hd). apply matches_QId_key in Hd.
  unfold unique_keys in U. rewrite keys_app, (keys_cons_keyed _ _ _ Hd) in U.
  apply NoDup_app in U as (_ & U1 & U2). apply NoDup_cons in U2 as [U2 _].
  apply find_none_keys. rewrite keys_app, not_elem_of_app. split; [|done].
  intros I. apply (U1 _ I), elem_of_cons. by left.
Qed.

(** C7. A delete request with a parseable identifier answers 200 with the
    body [{message: "Task deleted successfully"}] when a document is
    deleted and 404 with the body [{error: "Task with ID <id> not found"}]
    when none is; deleting the same identifier again answers that 404. *)
Theorem delete_status (id : string) (o : ObjectId) (c : collection) :
  ObjectId_new id = inr o ->
  (forall c1 d c2, first_match (QId o) c c1 d c2 ->
     delete_api_tasks_id id c
     = (Response 200 (VObject {[ "message" := VString "Task deleted successfully" ]}),
        c1 ++ c2)) /\
  (List.find (matches (QId o)) c = None ->
     delete_api_tasks_id id c
     = (Response 404
          (VObject {[ "error" := VString ("Task with ID " +:+ id +:+ " not found") ]}),
        c)) /\
  (unique_keys c ->
     (delete_api_tasks_id id (delete_api_tasks_id id c).2).1
     = Response 404
         (VObject {[ "error" := VString ("Task with ID " +:+ id +:+ " not found") ]})).
Proof.
  intros P.
  assert (H1 : forall c1 d c2, first_match (QId o) c c1 d c2 ->
     delete_api_tasks_id id c
     = (Response 200 (VObject {[ "message" := VString "Task deleted successfully" ]}),
        c1 ++ c2)).
  { intros c1 d c2 FM. unfold delete_api_tasks_id. run. rewrite P.
    by rewrite (first_match_remove _ _ _ _ _ FM). }
  assert (H0 : forall c0, List.find (matches (QId o)) c0 = None ->
     delete_api_tasks_id id c0
     = (Response 404
          (VObject {[ "error" := VString ("Task with ID " +:+ id +:+ " not found") ]}),
        c0)).
  { intros c0 F. unfold delete_api_tasks_id. run. rewrite P.
    by rewrite (find_none_remove _ _ F). }
  split; [done|]. split; [by apply H0|].
  destruct (List.find (matches (QId o)) c) as [d|] eqn:F.
  - destruct (find_first_match _ _ _ F) as (c1 & c2 & FM).
    rewrite (H1 _ _ _ FM). simpl.
    intros U. by rewrite (H0 _ (removed_key_gone _ _ _ _ _ U FM)).
  - rewrite (H0 _ F). simpl. intros _. by rewrite (H0 _ F).
Qed.

(** ** C2, C8 and C10: create *)

Lemma find_appended o c d :
  o ∉ keys c -> matches (QId o) d = true ->
  List.find (matches (QId o)) (c ++ [d]) = Some d.
Proof.
  intros N Hd. apply find_none_keys in N.
  induction c as [|x c IH]; simpl in *; [by rewrite Hd|].
  destruct (matches (QId o) x); [discriminate|]. by apply IH.
Qed.

Lemma bson_value_truthy (v : value) : truthy v = true -> bson_value v = v.
Proof. by destruct v. Qed.

Lemma bson_value_or_else (a b : value) :
  b <> VUndefined -> bson_value (or_else a b) = or_else a b.
Proof.
  intros N. unfold or_else. destruct (truthy a) eqn:T.
  - by apply bson_value_truthy.
  - by apply bson_value_defined.
Qed.

(** A create request with a truthy title and an unused generated key stores
    [created] at the end of the collection and answers with it. *)
Lemma create_run req_body t1 t2 fresh c :
  truthy (get req_body "title") = true ->
  fresh ∉ keys c ->
  post_api_tasks req_body t1 t2 fresh c
  = (Response 201 (VObject (created req_body t1 t2 fresh)),
     c ++ [created req_body t1 t2 fresh]).
Proof.
  intros T N. unfold post_api_tasks. run. rewrite T. simpl.
  assert (F := proj2 (find_none_keys _ _) N).
  rewrite (proj1 (find_none_existsb _ _) F).
  rewrite !fmap_insert, map_fmap_singleton.
  rewrite (bson_value_truthy _ T), !bson_value_or_else by done. simpl.
  fold (created req_body t1 t2 fresh).
  rewrite (find_appended _ _ _ N); [done|].
  apply matches_QId, lookup_insert_eq.
Qed.

Lemma get_run_found id o c d :
  ObjectId_new id = inr o -> List.find (matches (QId o)) c = Some d ->
  get_api_tasks_id id c
  = (Response 200 (VObject (<["id" := VString (ObjectId_toString o)]> d)), c).
Proof.
  intros P F. unfold get_api_tasks_id. run. rewrite P, F. simpl.
  destruct (find_first_match _ _ _ F) as (c1 & c2 & _ & _ & Hd).
  apply matches_QId in Hd. by rewrite (transform_keyed d o Hd).
Qed.

Lemma put_run_found id o req_body now c c1 d c2 :
  ObjectId_new id = inr o -> first_match (QId o) c c1 d c2 ->
  exists d',
    d' !! "_id" = Some (VObjectId o) /\
    put_api_tasks_id id req_body now c
    = (Response 200 (VObject (<["id" := VString (ObjectId_toString o)]> d')),
       c1 ++ d' :: c2).
Proof.
  intros P FM. exists (update_set req_body now ∪ d).
  split; [|by apply put_run_updated].
  apply matches_QId, update_set_keeps. by destruct FM as (_ & _ & Hd).
Qed.

Lemma transformed_has_id d t :
  transformTaskDocument (VObject d) = inr t -> carries_id t.
Proof.
  unfold transformTaskDocument, carries_id. simpl.
  destruct (toString (get d "_id")) as [e|s]; [discriminate|].
  intros [= <-]. eexists _, s. split; [done|]. apply lookup_insert_eq.
Qed.

Lemma all_keyed_snoc (c : @collection ObjectId) d :
  all_keyed c -> has_key d = true -> all_keyed (c ++ [d]).
Proof. intros A K. apply Forall_app. split; [done|]. by constructor. Qed.

Lemma created_lookup req_body t1 t2 (fresh : ObjectId) :
  let d := created req_body t1 t2 fresh in
  d !! "_id" = Some (VObjectId fresh) /\
  d !! "id" = None /\
  d !! "title" = Some (get req_body "title") /\
  d !! "description" = Some (or_else (get req_body "description") (VString "")) /\
  d !! "complete" = Some (or_else (get req_body "complete") (VBool false)) /\
  d !! "createdAt" = Some (VDate t1) /\
  d !! "updatedAt" = Some (VDate t2).
Proof. unfold created. by repeat split. Qed.


(** C10. The create operation applies its defaults to every falsy supplied
    value: a [description] of [null], [0] or [""] is stored as [""] and a
    [complete] of [0], [""] or [null] is stored as [false]; a truthy
    [complete], a non-empty string for one, is stored as supplied. *)
Theorem create_defaults_on_falsy (req_body : gmap string value) (t1 t2 : Z)
    (fresh : ObjectId) (c : collection) :
  truthy (get req_body "title") = true ->
  fresh ∉ keys c ->
  exists d,
    (post_api_tasks req_body t1 t2 fresh c).2 = c ++ [d] /\
    (truthy (get req_body "description") = false ->
       d !! "description" = Some (VString "")) /\
    (truthy (get req_body "complete") = false ->
       d !! "complete" = Some (VBool false)) /\
    (forall v, In v [VNull; VNumber (S754_zero false); VString ""] ->
       req_body !! "description" = Some v -> d !! "description" = Some (VString "")) /\
    (forall v, In v [VNumber (S754_zero false); VString ""; VNull] ->
       req_body !! "complete" = Some v -> d !! "complete" = Some (VBool false)) /\
    (forall v, truthy v = true ->
       req_body !! "complete" = Some v -> d !! "complete" = Some v) /\
    (forall s, s <> "" ->
       req_body !! "complete" = Some (VString s) -> d !! "complete" = Some (VString s)).
Proof.
  intros T N. exists (created req_body t1 t2 fresh).
  destruct (created_lookup req_body t1 t2 fresh) as (_ & _ & _ & Kd & Kc & _ & _).
  rewrite create_run by done. split; [done|].
  unfold or_else, get in *.
  split; [intros F; by rewrite F in Kd|].
  split; [intros F; by rewrite F in Kc|].
  split.
  { intros v I E. rewrite E in Kd. simpl in I.
    destruct I as [<-|[<-|[<-|[]]]]; exact Kd. }
  split.
  { intros v I E. rewrite E in Kc. simpl in I.
    destruct I as [<-|[<-|[<-|[]]]]; exact Kc. }
  split.
  { intros v V E. rewrite E in Kc. simpl in Kc. by rewrite V in Kc. }
  intros s S E. rewrite E in Kc. simpl in Kc.
  destruct (String.eqb s "") eqn:Q; [by apply String.eqb_eq in Q|exact Kc].
Qed.

Lemma list_run complete c :
  all_keyed c ->
  exists ts,
    get_api_tasks complete c = (Response 200 (VArray ts), c) /\ Forall carries_id ts.
Proof.
  intros A. unfold get_api_tasks. run.
  set (q := if is_defined complete then _ else _).
  destruct (map_transform_keyed _ (all_keyed_filter (matches q) c A)) as (ts & E & F).
  exists ts. rewrite E. split; [done|].
  clear E. induction F as [|d t l ts' Ht _ IH]; [constructor|].
  constructor; [by apply (transformed_has_id d)|done].
Qed.

(** C8. A successful create answers 201 with the stored document as read
    back from the collection by its new identifier: it carries the native
    [_id] and no [id] field.  On the same collection the get, update and
    list operations answer with documents that carry the string [id], and
    delete answers with a message. *)
Theorem create_answers_raw_document (req_body : gmap string value) (t1 t2 : Z)
    (fresh : ObjectId) (c : collection) :
  truthy (get req_body "title") = true ->
  fresh ∉ keys c ->
  exists d,
    post_api_tasks req_body t1 t2 fresh c = (Response 201 (VObject d), c ++ [d]) /\
    List.find (matches (QId fresh)) (c ++ [d]) = Some d /\
    d !! "_id" = Some (VObjectId fresh) /\
    d !! "id" = None /\
    ~ carries_id (VObject d) /\
    (forall id, ObjectId_new id = inr fresh ->
       exists t, (get_api_tasks_id id (c ++ [d])).1 = Response 200 t /\ carries_id t) /\
    (forall id b now, ObjectId_new id = inr fresh ->
       exists t, (put_api_tasks_id id b now (c ++ [d])).1 = Response 200 t /\
                 carries_id t) /\
    (forall q, all_keyed c ->
       exists ts, (get_api_tasks q (c ++ [d])).1 = Response 200 (VArray ts) /\
                  Forall carries_id ts) /\
    (forall id, ObjectId_new id = inr fresh ->
       (delete_api_tasks_id id (c ++ [d])).1
       = Response 200 (VObject {[ "message" := VString "Task deleted successfully" ]})).
Proof.
  intros T N. set (d := created req_body t1 t2 fresh). exists d.
  destruct (created_lookup req_body t1 t2 fresh) as (Ki & Kn & _). fold d in Ki, Kn.
  assert (Hd : matches (QId fresh) d = true) by by apply matches_QId.
  assert (F : List.find (matches (QId fresh)) (c ++ [d]) = Some d)
    by by apply find_appended.
  destruct (find_first_match _ _ _ F) as (c1 & c2 & FM).
  split; [by apply create_run|]. split; [done|]. split; [done|]. split; [done|].
  split. { intros (m & s & [= <-] & E). congruence. }
  split.
  { intros id P. rewrite (get_run_found id fresh _ d P F). simpl.
    eexists. split; [done|]. eexists _, _. split; [done|]. apply lookup_insert_eq. }
  split.
  { intros id b now P.
    destruct (put_run_found id fresh b now _ _ _ _ P FM) as (d' & _ & ->). simpl.
    eexists. split; [done|]. eexists _, _. split; [done|]. apply lookup_insert_eq. }
  split.
  { intros q A. destruct (list_run q (c ++ [d])) as (ts & -> & Hts).
    - apply all_keyed_snoc; [done|]. unfold has_key, key. by rewrite Ki.
    - by exists ts. }
  intros id P. unfold delete_api_tasks_id. run. rewrite P.
  by rewrite (first_match_remove _ _ _ _ _ FM).
Qed.

(** ** The handlers keep the invariants of the collection *)

Lemma get_api_tasks_reads complete c : (get_api_tasks complete c).2 = c.
Proof.
  unfold get_api_tasks. run.
  by destruct (map_transform _).
Qed.

Lemma get_api_tasks_id_reads id c : (get_api_tasks_id id c).2 = c.
Proof.
  unfold get_api_tasks_id. run.
  destruct (ObjectId_new id); simpl; [done|].
  destruct (List.find _ c); simpl; [|done].
  by destruct (transformTaskDocument _).
Qed.

Lemma post_api_tasks_keeps req_body t1 t2 fresh c :
  all_keyed c /\ unique_keys c ->
  all_keyed (post_api_tasks req_body t1 t2 fresh c).2 /\
  unique_keys (post_api_tasks req_body t1 t2 fresh c).2.
Proof.
  intros [A U].
  destruct (truthy (get req_body "title")) eqn:T.
  - destruct (List.find (matches (QId fresh)) c) as [x|] eqn:F.
    + unfold post_api_tasks. run. rewrite T. simpl.
      destruct (existsb _ c) eqn:X; [done|].
      apply find_none_existsb in X. congruence.
    + apply find_none_keys in F. rewrite create_run by done. simpl.
      destruct (created_lookup req_body t1 t2 fresh) as (Ki & _).
      assert (K : key (created req_body t1 t2 fresh) = Some fresh)
        by (unfold key; by rewrite Ki).
      split.
      * apply all_keyed_snoc; [done|]. unfold has_key. by rewrite K.
      * unfold unique_keys. rewrite keys_app, (keys_cons_keyed _ _ _ K).
        apply NoDup_app. split; [done|]. split; [|apply NoDup_singleton].
        intros o I ->%list_elem_of_singleton. done.
  - unfold post_api_tasks. run. by rewrite T.
Qed.

Lemma put_api_tasks_id_keeps id req_body now c :
  all_keyed c /\ unique_keys c ->
  all_keyed (put_api_tasks_id id req_body now c).2 /\
  unique_keys (put_api_tasks_id id req_body now c).2.
Proof.
  intros [A U]. destruct (ObjectId_new id) as [e|o] eqn:P.
  { by rewrite (put_run_malformed id e req_body now c P). }
  destruct (List.find (matches (QId o)) c) as [d|] eqn:F.
  - destruct (find_first_match _ _ _ F) as (c1 & c2 & FM).
    rewrite (put_run_updated id o req_body now c c1 d c2 P FM). simpl.
    destruct FM as (-> & Hn & Hd).
    assert (Hs : matches (QId o) (update_set req_body now ∪ d) = true)
      by by apply update_set_keeps.
    apply matches_QId_key in Hs, Hd. split.
    + apply Forall_app in A as [A1 A2]. apply Forall_cons in A2 as [_ A2].
      apply Forall_app. split; [done|]. constructor; [|done].
      unfold has_key. by rewrite Hs.
    + unfold unique_keys in *.
      rewrite keys_app, (keys_cons_keyed _ _ _ Hs).
      by rewrite keys_app, (keys_cons_keyed _ _ _ Hd) in U.
  - by rewrite (put_run_missing id o req_body now c P F).
Qed.

Lemma delete_api_tasks_id_keeps id c :
  all_keyed c /\ unique_keys c ->
  all_keyed (delete_api_tasks_id id c).2 /\
  unique_keys (delete_api_tasks_id id c).2.
Proof.
  intros [A U]. unfold delete_api_tasks_id. run.
  destruct (ObjectId_new id) as [e|o]; simpl; [done|].
  destruct (List.find (matches (QId o)) c) as [d|] eqn:F.
  - destruct (find_first_match _ _ _ F) as (c1 & c2 & FM).
    rewrite (first_match_remove _ _ _ _ _ FM). simpl.
    destruct FM as (-> & Hn & Hd). split.
    + apply Forall_app in A as [A1 A2]. apply Forall_cons in A2 as [_ A2].
      by apply Forall_app.
    + unfold unique_keys in *. apply matches_QId_key in Hd.
      rewrite keys_app, (keys_cons_keyed _ _ _ Hd) in U. rewrite keys_app.
      apply NoDup_app in U as (U1 & U2 & U3). apply NoDup_cons in U3 as [_ U3].
      apply NoDup_app. repeat split; [done| |done].
      intros x I1 I2. apply (U2 x I1), elem_of_cons. by right.
  - by rewrite (find_none_remove _ _ F).
Qed.

(** The handlers keep a collection keyed, with distinct keys. *)
Lemma serve_keeps rs c :
  all_keyed c /\ unique_keys c -> all_keyed (serve rs c) /\ unique_keys (serve rs c).
Proof.
  revert c. induction rs as [|r rs IH]; intros c I; [done|].
  apply IH. destruct r; simpl.
  - by rewrite get_api_tasks_reads.
  - by rewrite get_api_tasks_id_reads.
  - by apply post_api_tasks_keeps.
  - by apply put_api_tasks_id_keeps.
  - by apply delete_api_tasks_id_keeps.
Qed.

(** X12. Every collection the handlers build from the empty one, whatever
    the requests, holds documents that each carry an identifier of the
    storage engine's key type, and no two of them carry the same. *)
Lemma serve_from_empty rs : all_keyed (serve rs []) /\ unique_keys (serve rs []).
Proof. apply serve_keeps. split; [constructor|]. unfold unique_keys. constructor. Qed.

(** ** Further properties of the handlers *)

Lemma get_run_missing id o c :
  ObjectId_new id = inr o -> List.find (matches (QId o)) c = None ->
  get_api_tasks_id id c = (Response 404 (error_body (not_found id)), c).
Proof. intros P F. unfold get_api_tasks_id. run. by rewrite P, F. Qed.

Lemma get_run_malformed id e c :
  ObjectId_new id = inl e ->
  get_api_tasks_id id c = (Response 500 (error_body (message e)), c).
Proof. intros P. unfold get_api_tasks_id. run. by rewrite P. Qed.

Lemma first_match_replace o c c1 (d : gmap string value) c2 d' :
  first_match (QId o) c c1 d c2 -> matches (QId o) d' = true ->
  first_match (QId o) (c1 ++ d' :: c2) c1 d' c2.
Proof. intros (_ & Hn & _) Hd. by split. Qed.

Lemma delete_run_malformed id e c :
  ObjectId_new id = inl e ->
  delete_api_tasks_id id c = (Response 500 (error_body (message e)), c).
Proof. intros P. unfold delete_api_tasks_id. run. by rewrite P. Qed.

Lemma delete_run_missing id o c :
  ObjectId_new id = inr o -> List.find (matches (QId o)) c = None ->
  delete_api_tasks_id id c = (Response 404 (error_body (not_found id)), c).
Proof.
  intros P F. unfold delete_api_tasks_id. run. rewrite P.
  by rewrite (find_none_remove _ _ F).
Qed.

Lemma delete_run_removed id o c c1 d c2 :
  ObjectId_new id = inr o -> first_match (QId o) c c1 d c2 ->
  delete_api_tasks_id id c
  = (Response 200 (VObject {[ "message" := VString "Task deleted successfully" ]}),
     c1 ++ c2).
Proof.
  intros P FM. unfold delete_api_tasks_id. run. rewrite P.
  by rewrite (first_match_remove _ _ _ _ _ FM).
Qed.

Lemma find_skip q (c1 : @collection ObjectId) x c2 :
  matches q x = false ->
  List.find (matches q) (c1 ++ x :: c2) = List.find (matches q) (c1 ++ c2).
Proof.
  intros N. induction c1 as [|y c1 IH]; simpl; [by rewrite N|].
  by destruct (matches q y).
Qed.

Lemma matches_other o o' (d : gmap string value) :
  matches (QId o) d = true -> o <> o' -> matches (QId o') d = false.
Proof.
  intros M N. destruct (matches (QId o') d) eqn:E; [|done].
  apply matches_QId in M, E. congruence.
Qed.

(** The response to a get request is a function of the parsed identifier
    and of the first document that matches it. *)
Lemma get_by_find id o c c' :
  ObjectId_new id = inr o ->
  List.find (matches (QId o)) c' = List.find (matches (QId o)) c ->
  (get_api_tasks_id id c').1 = (get_api_tasks_id id c).1.
Proof.
  intros P E. destruct (List.find (matches (QId o)) c) as [d|] eqn:F.
  - by rewrite (get_run_found id o c d P F), (get_run_found id o c' d P E).
  - by rewrite (get_run_missing id o c P F), (get_run_missing id o c' P E).
Qed.

(** X1. An update or a delete request whose identifier string does not
    parse answers 500 with the body [{error: <message of the parse error>}]
    and leaves the collection as it was, whatever the request body holds. *)
Theorem malformed_id_rejected (id : string) (e : exn) (req_body : gmap string value)
    (now : Z) (c : collection) :
  ObjectId_new id = inl e ->
  put_api_tasks_id id req_body now c
  = (Response 500 (VObject {[ "error" := VString (message e) ]}), c) /\
  delete_api_tasks_id id c
  = (Response 500 (VObject {[ "error" := VString (message e) ]}), c).
Proof.
  intros P. split; [by apply put_run_malformed|by apply delete_run_malformed].
Qed.

(** X2. An update of an identifier that no document has answers 404 with
    the body [{error: "Task with ID <id> not found"}] and stores nothing:
    the update never inserts. *)
Theorem update_never_inserts (id : string) (o : ObjectId)
    (req_body : gmap string value) (now : Z) (c : collection) :
  ObjectId_new id = inr o ->
  o ∉ keys c ->
  put_api_tasks_id id req_body now c
  = (Response 404
       (VObject {[ "error" := VString ("Task with ID " +:+ id +:+ " not found") ]}),
     c).
Proof.
  intros P N. apply put_run_missing with o; [done|]. by apply find_none_keys.
Qed.

(** X3. An update of an existing task changes four fields of it and nothing
    else: every field other than [title], [description], [complete] and
    [updatedAt] reads as before, and the documents before and after the
    task in the collection are the same. *)
Theorem update_keeps_other_fields (id : string) (o : ObjectId)
    (req_body : gmap string value) (now : Z) (c c1 c2 : collection)
    (d : gmap string value) :
  ObjectId_new id = inr o ->
  first_match (QId o) c c1 d c2 ->
  exists d',
    (put_api_tasks_id id req_body now c).2 = c1 ++ d' :: c2 /\
    forall k, k ∉ ["title"; "description"; "complete"; "updatedAt"] ->
              d' !! k = d !! k.
Proof.
  intros P FM. exists (update_set req_body now ∪ d).
  rewrite (put_run_updated _ _ _ _ _ _ _ _ P FM). split; [done|].
  intros k N. apply lookup_union_r. unfold update_set.
  rewrite !not_elem_of_cons in N. destruct N as (N1 & N2 & N3 & N4 & _).
  rewrite !lookup_insert_ne by done. by apply lookup_singleton_ne.
Qed.

(** X4. A get request on the identifier of an update that has just been
    served answers exactly as the update did, and leaves the collection as
    the update left it: 200 with the same transformed task, 404 with the
    same body, or 500 with the same message. *)
Theorem get_after_update (id : string) (req_body : gmap string value) (now : Z)
    (c : collection) :
  get_api_tasks_id id (put_api_tasks_id id req_body now c).2
  = put_api_tasks_id id req_body now c.
Proof.
  destruct (ObjectId_new id) as [e|o] eqn:P.
  - rewrite (put_run_malformed _ _ _ _ _ P). by apply get_run_malformed.
  - destruct (List.find (matches (QId o)) c) as [d|] eqn:F.
    + destruct (find_first_match _ _ _ F) as (c1 & c2 & FM).
      rewrite (put_run_updated _ _ _ _ _ _ _ _ P FM). simpl.
      apply get_run_found; [done|].
      apply (first_match_find _ _ c1 _ c2), (first_match_replace _ c _ d); [done|].
      apply update_set_keeps. by destruct FM as (_ & _ & Hd).
    + rewrite (put_run_missing _ _ _ _ _ P F). by apply get_run_missing with o.
Qed.

Lemma update_set_overrides req_body1 now1 req_body2 now2 (d : gmap string value) :
  update_set req_body2 now2 ∪ (update_set req_body1 now1 ∪ d)
  = update_set req_body2 now2 ∪ d.
Proof.
  rewrite (assoc_L (∪)). by f_equal.
Qed.

(** X5. The last update wins: serving an update of an identifier after
    another update of the same identifier gives the response and the
    collection of serving the later one alone.  In particular an update
    served twice gives what it gives served once. *)
Theorem update_last_wins (id : string) (req_body1 req_body2 : gmap string value)
    (now1 now2 : Z) (c : collection) :
  put_api_tasks_id id req_body2 now2 (put_api_tasks_id id req_body1 now1 c).2
  = put_api_tasks_id id req_body2 now2 c.
Proof.
  destruct (ObjectId_new id) as [e|o] eqn:P.
  - by rewrite (put_run_malformed id e req_body1 now1 c P).
  - destruct (List.find (matches (QId o)) c) as [d|] eqn:F.
    + destruct (find_first_match _ _ _ F) as (c1 & c2 & FM).
      rewrite (put_run_updated id o req_body1 now1 c _ _ _ P FM). simpl.
      assert (Hd : matches (QId o) (update_set req_body1 now1 ∪ d) = true).
      { apply update_set_keeps. by destruct FM as (_ & _ & Hd). }
      rewrite (put_run_updated id o req_body2 now2 _ _ _ _ P
                 (first_match_replace _ _ _ _ _ _ FM Hd)).
      rewrite (put_run_updated id o req_body2 now2 c _ _ _ P FM).
      by rewrite update_set_overrides.
    + by rewrite (put_run_missing id o req_body1 now1 c P F).
Qed.

Lemma create_requires_title_run req_body t1 t2 (fresh : ObjectId) c :
  truthy (get req_body "title") = false ->
  post_api_tasks req_body t1 t2 fresh c
  = (Response 400 (error_body "Title is required"), c).
Proof. intros T. unfold post_api_tasks. run. by rewrite T. Qed.

Lemma create_duplicate_run req_body t1 t2 (fresh : ObjectId) c :
  truthy (get req_body "title") = true -> fresh ∈ keys c ->
  post_api_tasks req_body t1 t2 fresh c
  = (Response 500 (error_body (message (duplicate_key fresh))), c).
Proof.
  intros T I. unfold post_api_tasks. run. rewrite T. simpl.
  destruct (existsb _ c) eqn:X; [done|].
  apply find_none_existsb, find_none_keys in X. done.
Qed.

Lemma delete_leaves_none id o c :
  ObjectId_new id = inr o -> unique_keys c ->
  List.find (matches (QId o)) (delete_api_tasks_id id c).2 = None.
Proof.
  intros P U. destruct (List.find (matches (QId o)) c) as [d|] eqn:F.
  - destruct (find_first_match _ _ _ F) as (c1 & c2 & FM).
    rewrite (delete_run_removed id o c _ _ _ P FM). simpl.
    by apply (removed_key_gone o c c1 d c2).
  - by rewrite (delete_run_missing id o c P F).
Qed.

(** X6. After a delete request with a parseable identifier, on a
    collection with distinct keys, the task is gone for every operation:
    a get and an update of that identifier answer 404, the update stores
    nothing, and a second delete leaves the collection as it is. *)
Theorem deleted_task_is_gone (id : string) (o : ObjectId)
    (req_body : gmap string value) (now : Z) (c : collection) :
  ObjectId_new id = inr o ->
  unique_keys c ->
  get_api_tasks_id id (delete_api_tasks_id id c).2
  = (Response 404 (error_body ("Task with ID " +:+ id +:+ " not found")),
     (delete_api_tasks_id id c).2) /\
  put_api_tasks_id id req_body now (delete_api_tasks_id id c).2
  = (Response 404 (error_body ("Task with ID " +:+ id +:+ " not found")),
     (delete_api_tasks_id id c).2) /\
  (delete_api_tasks_id id (delete_api_tasks_id id c).2).2 = (delete_api_tasks_id id c).2.
Proof.
  intros P U. assert (F := delete_leaves_none id o c P U).
  split; [by apply get_run_missing with o|].
  split; [by apply put_run_missing with o|].
  by rewrite (delete_run_missing id o _ P F).
Qed.

(** X7. A request on one identifier does not change what a get request on
    another identifier answers: this holds for an update and a delete of a
    different key and for a create whose generated key is different. *)
Theorem other_tasks_unaffected (id' : string) (o' : ObjectId) (c : collection) :
  ObjectId_new id' = inr o' ->
  (forall id o req_body now, ObjectId_new id = inr o -> o <> o' ->
     (get_api_tasks_id id' (put_api_tasks_id id req_body now c).2).1
     = (get_api_tasks_id id' c).1) /\
  (forall id o, ObjectId_new id = inr o -> o <> o' ->
     (get_api_tasks_id id' (delete_api_tasks_id id c).2).1
     = (get_api_tasks_id id' c).1) /\
  (forall req_body t1 t2 fresh, fresh <> o' ->
     (get_api_tasks_id id' (post_api_tasks req_body t1 t2 fresh c).2).1
     = (get_api_tasks_id id' c).1).
Proof.
  intros P'. repeat split.
  - intros id o req_body now P N. apply get_by_find with o'; [done|].
    destruct (List.find (matches (QId o)) c) as [d|] eqn:F.
    + destruct (find_first_match _ _ _ F) as (c1 & c2 & FM).
      rewrite (put_run_updated id o req_body now c _ _ _ P FM). simpl.
      destruct FM as (-> & _ & Hd).
      rewrite !find_skip; [done| |].
      * by apply matches_other with o.
      * apply matches_other with o; [|done]. by apply update_set_keeps.
    + by rewrite (put_run_missing id o req_body now c P F).
  - intros id o P N. apply get_by_find with o'; [done|].
    destruct (List.find (matches (QId o)) c) as [d|] eqn:F.
    + destruct (find_first_match _ _ _ F) as (c1 & c2 & FM).
      rewrite (delete_run_removed id o c _ _ _ P FM). simpl.
      destruct FM as (-> & _ & Hd).
      rewrite find_skip; [done|]. by apply matches_other with o.
    + by rewrite (delete_run_missing id o c P F).
  - intros req_body t1 t2 fresh N. apply get_by_find with o'; [done|].
    destruct (truthy (get req_body "title")) eqn:T.
    + destruct (List.find (matches (QId fresh)) c) as [x|] eqn:F.
      * unfold post_api_tasks. run. rewrite T. simpl.
        destruct (existsb _ c) eqn:X; [done|].
        apply find_none_existsb in X. congruence.
      * apply find_none_keys in F. rewrite create_run by done. simpl.
        rewrite find_skip, app_nil_r; [done|].
        apply matches_other with fresh; [|done].
        apply matches_QId, (created_lookup req_body t1 t2 fresh).
    + by rewrite create_requires_title_run.
Qed.

(** X8. The statuses each handler can answer with: the list answers 200 or
    500; get, update and delete answer 200, 404 or 500; create answers
    201, 400 or 500. *)
Theorem status_ranges (c : collection) :
  (forall complete, status (get_api_tasks complete c).1 ∈ [200; 500]%Z) /\
  (forall id, status (get_api_tasks_id id c).1 ∈ [200; 404; 500]%Z) /\
  (forall req_body t1 t2 fresh,
     status (post_api_tasks req_body t1 t2 fresh c).1 ∈ [201; 400; 500]%Z) /\
  (forall id req_body now,
     status (put_api_tasks_id id req_body now c).1 ∈ [200; 404; 500]%Z) /\
  (forall id, status (delete_api_tasks_id id c).1 ∈ [200; 404; 500]%Z).
Proof.
  split; [|split; [|split; [|split]]].
  - intros complete. unfold get_api_tasks. run.
    destruct (map_transform _); simpl; set_solver.
  - intros id. destruct (ObjectId_new id) as [e|o] eqn:P.
    + rewrite (get_run_malformed id e c P). set_solver.
    + destruct (List.find (matches (QId o)) c) as [d|] eqn:F.
      * rewrite (get_run_found id o c d P F). set_solver.
      * rewrite (get_run_missing id o c P F). set_solver.
  - intros req_body t1 t2 fresh. destruct (truthy (get req_body "title")) eqn:T.
    + destruct (decide (fresh ∈ keys c)) as [I|N].
      * rewrite create_duplicate_run by done. set_solver.
      * rewrite create_run by done. set_solver.
    + rewrite create_requires_title_run by done. set_solver.
  - intros id req_body now. destruct (ObjectId_new id) as [e|o] eqn:P.
    + rewrite (put_run_malformed id e req_body now c P). set_solver.
    + destruct (List.find (matches (QId o)) c) as [d|] eqn:F.
      * destruct (find_first_match _ _ _ F) as (c1 & c2 & FM).
        rewrite (put_run_updated id o req_body now c _ _ _ P FM). set_solver.
      * rewrite (put_run_missing id o req_body now c P F). set_solver.
  - intros id. destruct (ObjectId_new id) as [e|o] eqn:P.
    + rewrite (delete_run_malformed id e c P). set_solver.
    + destruct (List.find (matches (QId o)) c) as [d|] eqn:F.
      * destruct (find_first_match _ _ _ F) as (c1 & c2 & FM).
        rewrite (delete_run_removed id o c _ _ _ P FM). set_solver.
      * rewrite (delete_run_missing id o c P F). set_solver.
Qed.

(** X9. The transformer is idempotent: applied to a result of its own it
    returns that result. *)
Theorem transform_idempotent (v t : value) :
  transformTaskDocument v = inr t -> transformTaskDocument t = inr t.
Proof.
  unfold transformTaskDocument.
  destruct (truthy v) eqn:T; simpl; [|by intros [= <-]].
  destruct v as [| | | | | | | |d]; try discriminate.
  destruct (toString (get d "_id")) as [e|s] eqn:S; [discriminate|].
  intros [= <-]. simpl. unfold get in *.
  rewrite lookup_insert_ne by done. rewrite S. by rewrite insert_insert_eq.
Qed.

Lemma filter_all (c : @collection ObjectId) : List.filter (matches QAll) c = c.
Proof. induction c as [|d c IH]; [done|]. simpl. by rewrite IH. Qed.

(** [Array.prototype.map] stops at the first element that throws. *)
Lemma map_transform_first l1 v l2 ts e :
  map_transform l1 = inr ts -> transformTaskDocument v = inl e ->
  map_transform (l1 ++ v :: l2) = inl e.
Proof.
  revert ts. induction l1 as [|x l1 IH]; simpl; intros ts.
  - intros _ E. by rewrite E.
  - destruct (transformTaskDocument x) as [e'|t]; [discriminate|].
    destruct (map_transform l1) as [e'|ts']; [discriminate|].
    intros _ E. by rewrite (IH ts' eq_refl E).
Qed.

Lemma list_run_first_error c1 (d : gmap string value) c2 e :
  all_keyed c1 -> transformTaskDocument (VObject d) = inl e ->
  get_api_tasks VUndefined (c1 ++ d :: c2)
  = (Response 500 (VObject {[ "error" := VString (message e) ]}), c1 ++ d :: c2).
Proof.
  intros A E. unfold get_api_tasks. run. simpl. rewrite filter_all.
  destruct (map_transform_keyed c1 A) as (ts & M & _).
  rewrite map_app. simpl. by rewrite (map_transform_first _ _ _ ts e M E).
Qed.

(** X10. The transformer throws on a document without a usable [_id]: the
    [TypeError] of reading [toString] of [undefined] when [_id] is missing
    or [undefined], that of reading it of [null] when [_id] is [null].
    When such a document is the first one without an identifier in the
    collection, the unfiltered list answers 500 with the body
    [{error: <message of that error>}] instead of the tasks. *)
Theorem transform_needs_identifier (d : gmap string value) (c1 c2 : collection) :
  (get d "_id" = VUndefined ->
     transformTaskDocument (VObject d) = inl undefined_access /\
     (all_keyed c1 ->
      get_api_tasks VUndefined (c1 ++ d :: c2)
      = (Response 500 (VObject {[ "error" := VString (message undefined_access) ]}),
         c1 ++ d :: c2))) /\
  (get d "_id" = VNull ->
     transformTaskDocument (VObject d) = inl null_access /\
     (all_keyed c1 ->
      get_api_tasks VUndefined (c1 ++ d :: c2)
      = (Response 500 (VObject {[ "error" := VString (message null_access) ]}),
         c1 ++ d :: c2))).
Proof.
  split; intros N.
  - assert (E : transformTaskDocument (VObject d) = inl undefined_access).
    { unfold transformTaskDocument. simpl. by rewrite N. }
    split; [done|]. intros A. by apply list_run_first_error.
  - assert (E : transformTaskDocument (VObject d) = inl null_access).
    { unfold transformTaskDocument. simpl. by rewrite N. }
    split; [done|]. intros A. by apply list_run_first_error.
Qed.

(** X14. What each handler does to the size of the collection: list and
    get leave the collection as it is and update keeps its size; create
    keeps the stored documents and appends at most one document, one when
    it answers 201 and none when it answers 400; delete removes at most
    one document, one when it answers 200 and none when it answers 404. *)
Theorem collection_size (c : collection) :
  (forall complete, (get_api_tasks complete c).2 = c) /\
  (forall id, (get_api_tasks_id id c).2 = c) /\
  (forall id req_body now,
     length (put_api_tasks_id id req_body now c).2 = length c) /\
  (forall req_body t1 t2 fresh,
     exists l,
       (post_api_tasks req_body t1 t2 fresh c).2 = c ++ l /\
       length l <= 1 /\
       (status (post_api_tasks req_body t1 t2 fresh c).1 = 201%Z -> length l = 1) /\
       (status (post_api_tasks req_body t1 t2 fresh c).1 = 400%Z -> l = [])) /\
  (forall id,
     length (delete_api_tasks_id id c).2 <= length c /\
     length c <= length (delete_api_tasks_id id c).2 + 1 /\
     (status (delete_api_tasks_id id c).1 = 200%Z ->
        length c = length (delete_api_tasks_id id c).2 + 1) /\
     (status (delete_api_tasks_id id c).1 = 404%Z ->
        (delete_api_tasks_id id c).2 = c)).
Proof.
  split; [intros q; apply get_api_tasks_reads|].
  split; [intros id; apply get_api_tasks_id_reads|].
  split; [|split].
  - intros id req_body now. destruct (ObjectId_new id) as [e|o] eqn:P.
    + by rewrite (put_run_malformed id e req_body now c P).
    + destruct (List.find (matches (QId o)) c) as [d|] eqn:F.
      * destruct (find_first_match _ _ _ F) as (c1 & c2 & FM).
        rewrite (put_run_updated id o req_body now c _ _ _ P FM). simpl.
        destruct FM as (-> & _). by rewrite !length_app.
      * by rewrite (put_run_missing id o req_body now c P F).
  - intros req_body t1 t2 fresh. destruct (truthy (get req_body "title")) eqn:T.
    + destruct (decide (fresh ∈ keys c)) as [I|N].
      * rewrite create_duplicate_run by done. exists []. simpl.
        rewrite app_nil_r. repeat split; [lia|discriminate].
      * rewrite create_run by done. eexists [_]. simpl.
        repeat split; [lia|discriminate].
    + rewrite create_requires_title_run by done. exists []. simpl.
      rewrite app_nil_r. repeat split; [lia|discriminate].
  - intros id. destruct (ObjectId_new id) as [e|o] eqn:P.
    + rewrite (delete_run_malformed id e c P). simpl.
      repeat split; [lia|lia|discriminate].
    + destruct (List.find (matches (QId o)) c) as [d|] eqn:F.
      * destruct (find_first_match _ _ _ F) as (c1 & c2 & FM).
        rewrite (delete_run_removed id o c _ _ _ P FM). simpl.
        destruct FM as (-> & _). rewrite !length_app. simpl.
        repeat split; [lia|lia|lia|discriminate].
      * rewrite (delete_run_missing id o c P F). simpl.
        repeat split; [lia|lia|discriminate].
Qed.

Lemma list_run_selected complete c :
  all_keyed c ->
  exists ts,
    get_api_tasks complete c = (Response 200 (VArray ts), c) /\
    transformed_as
      (List.filter
         (matches (if is_defined complete
                   then QComplete (strict_eq_string complete "true")
                   else QAll)) c) ts.
Proof.
  intros A. unfold get_api_tasks. run.
  set (q := if is_defined complete then _ else _).
  destruct (map_transform_keyed _ (all_keyed_filter (matches q) c A)) as (ts & E & F).
  exists ts. by rewrite E.
Qed.

Lemma complete_partition (c : @collection ObjectId) :
  Forall (fun d => is_array (get d "complete") = false) c ->
  length (List.filter (matches (QComplete true)) c)
  + length (List.filter (matches (QComplete false)) c)
  + length (List.filter (fun d => negb (is_boolean (get d "complete"))) c)
  = length c.
Proof.
  induction 1 as [|d c Hd _ IH]; [done|]. cbn [List.filter].
  assert (X : Nat.b2n (matches (QComplete true) d)
              + Nat.b2n (matches (QComplete false) d)
              + Nat.b2n (negb (is_boolean (get d "complete"))) = 1).
  { revert Hd. unfold matches, get.
    by destruct (d !! "complete") as [[| |[]| | | | | |]|]. }
  destruct (matches (QComplete true) d), (matches (QComplete false) d),
    (negb (is_boolean (get d "complete"))); simpl in *; lia.
Qed.

(** X11. On a keyed collection in which no [complete] is an array, the two
    filtered lists are disjoint parts of the collection: the tasks listed
    for [complete=true], those listed for [complete=false] and the
    documents whose [complete] is not a boolean add up to the whole
    collection, so a task stored with a [complete] that is neither a
    boolean nor an array is listed by neither filter. *)
Theorem list_filter_partition (c : collection) :
  all_keyed c ->
  Forall (fun d => is_array (get d "complete") = false) c ->
  exists ts_true ts_false,
    get_api_tasks (VString "true") c = (Response 200 (VArray ts_true), c) /\
    get_api_tasks (VString "false") c = (Response 200 (VArray ts_false), c) /\
    length ts_true + length ts_false
    + length (List.filter (fun d => negb (is_boolean (get d "complete"))) c)
    = length c.
Proof.
  intros A N.
  destruct (list_run_selected (VString "true") c A) as (ts1 & E1 & F1).
  destruct (list_run_selected (VString "false") c A) as (ts2 & E2 & F2).
  exists ts1, ts2. split; [done|]. split; [done|].
  apply Forall2_length in F1, F2. simpl in F1, F2.
  rewrite <- F1, <- F2. by apply complete_partition.
Qed.

(** X13. The transformer never throws on a document of a collection that
    the handlers build from the empty one, whatever the requests: it
    returns the document with [id] set to the string form of its [_id]. *)
Theorem served_documents_transform (rs : list request) (d : gmap string value) :
  d ∈ serve rs [] ->
  exists o,
    d !! "_id" = Some (VObjectId o) /\
    transformTaskDocument (VObject d)
    = inr (VObject (<["id" := VString (ObjectId_toString o)]> d)).
Proof.
  intros I. destruct (serve_keeps rs []) as [A _].
  { split; [constructor|]. unfold unique_keys. constructor. }
  unfold all_keyed in A. rewrite Forall_forall in A.
  destruct (has_key_some d (A d I)) as [o E].
  exists o. split; [done|]. by apply transform_keyed.
Qed.

Lemma map_transform_app l1 l2 ts1 ts2 :
  map_transform l1 = inr ts1 -> map_transform l2 = inr ts2 ->
  map_transform (l1 ++ l2) = inr (ts1 ++ ts2).
Proof.
  revert ts1. induction l1 as [|v l1 IH]; simpl; intros ts1.
  - by intros [= <-].
  - destruct (transformTaskDocument v) as [e|t]; [discriminate|].
    destruct (map_transform l1) as [e|ts]; [discriminate|].
    intros [= <-] E2. by rewrite (IH ts eq_refl E2).
Qed.

(** X15. A created task is listed last: after a successful create on a
    keyed collection the unfiltered list answers with the tasks it listed
    before, in the same order, followed by the transform of the document
    the create answered with. *)
Theorem created_task_listed_last (req_body : gmap string value) (t1 t2 : Z)
    (fresh : ObjectId) (c : collection) :
  all_keyed c ->
  truthy (get req_body "title") = true ->
  fresh ∉ keys c ->
  exists ts d,
    post_api_tasks req_body t1 t2 fresh c = (Response 201 (VObject d), c ++ [d]) /\
    get_api_tasks VUndefined c = (Response 200 (VArray ts), c) /\
    get_api_tasks VUndefined (c ++ [d])
    = (Response 200
         (VArray (ts ++ [VObject (<["id" := VString (ObjectId_toString fresh)]> d)])),
       c ++ [d]).
Proof.
  intros A T N. set (d := created req_body t1 t2 fresh).
  destruct (map_transform_keyed c A) as (ts & E & _).
  exists ts, d. split; [by apply create_run|].
  assert (Ed : map_transform (map VObject [d])
               = inr [VObject (<["id" := VString (ObjectId_toString fresh)]> d)]).
  { simpl. rewrite (transform_keyed d fresh); [done|].
    apply (created_lookup req_body t1 t2 fresh). }
  unfold get_api_tasks. run. simpl. rewrite !filter_all, E. split; [done|].
  by rewrite map_app, (map_transform_app _ _ _ _ E Ed).
Qed.

Lemma find_none_forall q (c : @collection ObjectId) :
  List.find (matches q) c = None -> Forall (fun x => matches q x = false) c.
Proof.
  induction c as [|x c IH]; simpl; [constructor|].
  destruct (matches q x) eqn:E; [discriminate|]. intros F. constructor; auto.
Qed.

(** X16. The [id] field of the responses is never stored: when no stored
    document has an [id] field, none has one after any sequence of
    requests, also when request bodies carry an [id]. *)
Theorem id_never_stored (rs : list request) (c : collection) :
  Forall (fun d => d !! "id" = None) c ->
  Forall (fun d => d !! "id" = None) (serve rs c).
Proof.
  revert c. induction rs as [|r rs IH]; intros c A; [done|].
  apply IH. destruct r as [q|id|req_body t1 t2 fresh|id req_body now|id]; simpl.
  - by rewrite get_api_tasks_reads.
  - by rewrite get_api_tasks_id_reads.
  - destruct (truthy (get req_body "title")) eqn:T.
    + destruct (decide (fresh ∈ keys c)) as [I|N].
      * by rewrite create_duplicate_run.
      * rewrite create_run by done. simpl. apply Forall_app. split; [done|].
        constructor; [|done]. apply (created_lookup req_body t1 t2 fresh).
    + by rewrite create_requires_title_run.
  - destruct (ObjectId_new id) as [e|o] eqn:P.
    + by rewrite (put_run_malformed id e req_body now c P).
    + destruct (List.find (matches (QId o)) c) as [d|] eqn:F.
      * destruct (find_first_match _ _ _ F) as (c1 & c2 & FM).
        rewrite (put_run_updated id o req_body now c _ _ _ P FM). simpl.
        destruct FM as (-> & _).
        apply Forall_app in A as [A1 A2]. apply Forall_cons in A2 as [Ad A2].
        apply Forall_app. split; [done|]. constructor; [|done].
        by rewrite lookup_union_r.
      * by rewrite (put_run_missing id o req_body now c P F).
  - destruct (ObjectId_new id) as [e|o] eqn:P.
    + by rewrite (delete_run_malformed id e c P).
    + destruct (List.find (matches (QId o)) c) as [d|] eqn:F.
      * destruct (find_first_match _ _ _ F) as (c1 & c2 & FM).
        rewrite (delete_run_removed id o c _ _ _ P FM). simpl.
        destruct FM as (-> & _).
        apply Forall_app in A as [A1 A2]. apply Forall_cons in A2 as [_ A2].
        by apply Forall_app.
      * by rewrite (delete_run_missing id o c P F).
Qed.

(** X17. A create stores six fields and no other: whatever properties the
    request body holds, the document answered and stored has exactly
    [_id], [title], [description], [complete], [createdAt] and
    [updatedAt]. *)
Theorem create_stores_six_fields (req_body : gmap string value) (t1 t2 : Z)
    (fresh : ObjectId) (c : collection) :
  truthy (get req_body "title") = true ->
  fresh ∉ keys c ->
  exists d,
    post_api_tasks req_body t1 t2 fresh c = (Response 201 (VObject d), c ++ [d]) /\
    dom d
    = ({[ "_id"; "title"; "description"; "complete"; "createdAt"; "updatedAt" ]}
       : gset string).
Proof.
  intros T N. exists (created req_body t1 t2 fresh). split; [by apply create_run|].
  unfold created. rewrite !dom_insert_L, dom_singleton_L. set_solver.
Qed.

(** X18. A delete undoes a create: deleting the string form of the
    identifier that a successful create has assigned answers 200 and gives
    back the collection as it was before the create. *)
Theorem delete_undoes_create (req_body : gmap string value) (t1 t2 : Z)
    (fresh : ObjectId) (c : collection) :
  truthy (get req_body "title") = true ->
  fresh ∉ keys c ->
  ObjectId_new (ObjectId_toString fresh) = inr fresh ->
  delete_api_tasks_id (ObjectId_toString fresh)
    (post_api_tasks req_body t1 t2 fresh c).2
  = (Response 200 (VObject {[ "message" := VString "Task deleted successfully" ]}), c).
Proof.
  intros T N P. rewrite create_run by done. simpl.
  rewrite (delete_run_removed _ fresh _ c (created req_body t1 t2 fresh) [] P).
  - by rewrite app_nil_r.
  - split; [done|]. split; [by apply find_none_forall, find_none_keys|].
    apply matches_QId, (created_lookup req_body t1 t2 fresh).
Qed.

End Properties.

(** * The properties on [sample_tasks] *)

Ltac by_evaluation := apply (bool_decide_unpack _); vm_compute; exact I.

Ltac evaluated := vm_compute; reflexivity.

Lemma sample_tasks_keyed : all_keyed sample_tasks.
Proof. repeat constructor. Qed.

Lemma sample_tasks_unique : unique_keys sample_tasks.
Proof. unfold unique_keys. by_evaluation. Qed.

Lemma id_next_unused : id_next ∉ keys sample_tasks.
Proof. by_evaluation. Qed.

Lemma parse_milk : ObjectId_new id_milk = inr id_milk.
Proof. vm_compute. reflexivity. Qed.

Lemma parse_eggs : ObjectId_new id_eggs = inr id_eggs.
Proof. vm_compute. reflexivity. Qed.

Lemma parse_next : ObjectId_new id_next = inr id_next.
Proof. vm_compute. reflexivity. Qed.

Lemma find_eggs : List.find (matches (QId id_eggs)) sample_tasks = Some task_eggs.
Proof. vm_compute. reflexivity. Qed.

Lemma first_milk : first_match (QId id_milk) sample_tasks [] task_milk [task_eggs].
Proof. split; [done|]. split; [constructor|]. vm_compute. reflexivity. Qed.

Lemma parse_malformed :
  ObjectId_new "not-a-valid-id"
  = inl (Error "input must be a 24 character hex string, 12 byte Uint8Array, or an integer").
Proof. vm_compute. reflexivity. Qed.

Lemma first_eggs : first_match (QId id_eggs) sample_tasks [task_milk] task_eggs [].
Proof. split; [done|]. split; [repeat constructor|]; vm_compute; reflexivity. Qed.

Lemma sample_tasks_no_id : Forall (fun d => d !! "id" = None) sample_tasks.
Proof. repeat constructor; vm_compute; reflexivity. Qed.

Example buy_milk_statuses :
  map status (responses buy_milk []) = [201; 200; 200; 200; 404; 500]%Z
  /\ serve buy_milk [] = [].
Proof. split; vm_compute; reflexivity. Qed.

Lemma get_by_id_status_witness :
  get_api_tasks_id "not-a-valid-id" sample_tasks
  = (Response 500
       (VObject
          {[ "error" :=
               VString
                 "input must be a 24 character hex string, 12 byte Uint8Array, or an integer" ]}),
     sample_tasks) /\
  get_api_tasks_id id_next sample_tasks
  = (Response 404
       (VObject
          {[ "error" := VString "Task with ID 650000000000000000000003 not found" ]}),
     sample_tasks) /\
  get_api_tasks_id id_eggs sample_tasks
  = (Response 200 (VObject (<["id" := VString id_eggs]> task_eggs)), sample_tasks).
Proof.
  split; [|split].
  - exact (proj1 (get_by_id_status "not-a-valid-id" sample_tasks) _ parse_malformed).
  - apply (proj1 (proj2 (get_by_id_status id_next sample_tasks)) id_next parse_next).
    vm_compute. reflexivity.
  - exact (proj2 (proj2 (proj2 (get_by_id_status id_eggs sample_tasks))
                     id_eggs task_eggs parse_eggs find_eggs)).
Defined.

Lemma create_requires_title_witness :
  post_api_tasks body_empty_title 5000 5000
    id_next sample_tasks
  = (Response 400 (VObject {[ "error" := VString "Title is required" ]}), sample_tasks).
Proof. by apply create_requires_title. Defined.


Lemma tasks_with_array_keyed : all_keyed tasks_with_array.
Proof. repeat constructor. Qed.

(** C4, the counterexample. A create with [complete: [true]] stores the
    array; the list for [complete=true] then holds that task, whose
    [complete] field is not [true]: the tasks listed are not exactly those
    whose [complete] field is [true]. *)
Lemma list_complete_true_counterexample :
  post_api_tasks body_array 5000 5001 id_next sample_tasks
  = (Response 201 (VObject task_array), tasks_with_array) /\
  get task_array "complete" = VArray [VBool true] /\
  filter (fun d => get d "complete" = VBool true) tasks_with_array = [task_eggs] /\
  get_api_tasks (VString "true") tasks_with_array
  = (Response 200
       (VArray [VObject (<["id" := VString id_eggs]> task_eggs);
                VObject (<["id" := VString id_next]> task_array)]),
     tasks_with_array) /\
  ~ (exists ts,
       get_api_tasks (VString "true") tasks_with_array
       = (Response 200 (VArray ts), tasks_with_array) /\
       transformed_as
         (filter (fun d => get d "complete" = VBool true) tasks_with_array) ts).
Proof.
  assert (L : get_api_tasks (VString "true") tasks_with_array
              = (Response 200
                   (VArray [VObject (<["id" := VString id_eggs]> task_eggs);
                            VObject (<["id" := VString id_next]> task_array)]),
                 tasks_with_array)) by (vm_compute; reflexivity).
  assert (S : filter (fun d => get d "complete" = VBool true) tasks_with_array
              = [task_eggs]) by (vm_compute; reflexivity).
  split; [vm_compute; reflexivity|]. split; [vm_compute; reflexivity|].
  split; [exact S|]. split; [exact L|].
  intros (ts & E & T). rewrite S in T. rewrite L in E.
  apply Forall2_length in T. injection E as <-. discriminate T.
Qed.

Lemma list_filters_by_match_witness :
  (exists ts,
     get_api_tasks (VString "true") tasks_with_array
     = (Response 200 (VArray ts), tasks_with_array) /\
     tasks_with_id [task_eggs; task_array] ts) /\
  (exists ts,
     get_api_tasks (VString "no") tasks_with_array
     = (Response 200 (VArray ts), tasks_with_array) /\
     tasks_with_id [task_milk] ts) /\
  (exists ts,
     get_api_tasks VUndefined tasks_with_array
     = (Response 200 (VArray ts), tasks_with_array) /\
     tasks_with_id [task_milk; task_eggs; task_array] ts).
Proof.
  split; [|split].
  - destruct (list_filters_by_match (VString "true") tasks_with_array
                tasks_with_array_keyed) as (ts & E & T & _).
    exists ts. split; [exact E|]. exact (T eq_refl).
  - destruct (list_filters_by_match (VString "no") tasks_with_array
                tasks_with_array_keyed) as (ts & E & _ & T & _).
    exists ts. split; [exact E|]. by apply T.
  - destruct (list_filters_by_match VUndefined tasks_with_array
                tasks_with_array_keyed) as (ts & E & _ & _ & T).
    exists ts. split; [exact E|]. exact (T eq_refl).
Defined.

(** C1, the counterexample. An update that omits [description] and
    [complete] leaves the stored task with both fields present and [null]:
    they are neither absent nor [undefined]. *)
Lemma update_omitted_counterexample :
  body_dozen !! "complete" = None /\
  task_eggs !! "complete" = Some (VBool true) /\
  exists d',
    List.find (matches (QId id_eggs))
      (put_api_tasks_id id_eggs body_dozen 4000 sample_tasks).2 = Some d' /\
    d' !! "complete" = Some VNull /\
    d' !! "description" = Some VNull /\
    d' !! "complete" <> None /\
    d' !! "complete" <> Some VUndefined /\
    get d' "complete" <> VUndefined.
Proof.
  split; [vm_compute; reflexivity|]. split; [vm_compute; reflexivity|].
  exists (update_set body_dozen 4000 ∪ task_eggs).
  split; [vm_compute; reflexivity|].
  assert (C : (update_set body_dozen 4000 ∪ task_eggs) !! "complete" = Some VNull)
    by (vm_compute; reflexivity).
  split; [exact C|]. split; [vm_compute; reflexivity|].
  unfold get. rewrite C. by repeat split.
Qed.

Lemma update_overwrites_fields_witness :
  exists d' c1 c2,
    sample_tasks = c1 ++ task_eggs :: c2 /\
    (put_api_tasks_id id_eggs body_dozen 4000 sample_tasks).2 = c1 ++ d' :: c2 /\
    d' !! "title" = Some (VString "Buy a dozen eggs") /\
    d' !! "description" = Some VNull /\
    d' !! "complete" = Some VNull.
Proof.
  destruct (update_overwrites_fields id_eggs id_eggs body_dozen 4000 sample_tasks
              task_eggs parse_eggs find_eggs)
    as (d' & c1 & c2 & E & P & _ & Kt & _ & _ & _ & Kd & Kc).
  exists d', c1, c2. split; [exact E|]. split; [exact P|].
  split; [apply Kt; [vm_compute; reflexivity|discriminate]|].
  split; [apply Kd|apply Kc]; vm_compute; reflexivity.
Defined.

Lemma update_frame_witness :
  map (fun d => d !! "createdAt")
    (put_api_tasks_id id_eggs body_protected 4000
       sample_tasks).2
  = [Some (VDate 1000); Some (VDate 2000)] /\
  exists d',
    List.find (matches (QId id_eggs))
      (put_api_tasks_id id_eggs body_protected 4000
         sample_tasks).2 = Some d' /\
    d' !! "updatedAt" = Some (VDate 4000) /\
    d' !! "createdAt" = Some (VDate 2000) /\
    d' !! "_id" = Some (VObjectId id_eggs).
Proof.
  destruct (update_frame id_eggs body_protected 4000
              sample_tasks) as (Fc & _ & U).
  split; [exact Fc|]. exact (U id_eggs task_eggs parse_eggs find_eggs).
Defined.

Lemma delete_status_witness :
  delete_api_tasks_id id_milk sample_tasks
  = (Response 200 (VObject {[ "message" := VString "Task deleted successfully" ]}),
     [task_eggs]) /\
  (delete_api_tasks_id id_milk (delete_api_tasks_id id_milk sample_tasks).2).1
  = Response 404
      (VObject
         {[ "error" := VString "Task with ID 650000000000000000000001 not found" ]}) /\
  delete_api_tasks_id id_next sample_tasks
  = (Response 404
       (VObject
          {[ "error" := VString "Task with ID 650000000000000000000003 not found" ]}),
     sample_tasks).
Proof.
  destruct (delete_status id_milk id_milk sample_tasks parse_milk) as (D1 & _ & D2).
  destruct (delete_status id_next id_next sample_tasks parse_next) as (_ & D0 & _).
  split; [exact (D1 _ _ _ first_milk)|].
  split; [exact (D2 sample_tasks_unique)|].
  apply D0. vm_compute. reflexivity.
Defined.


Lemma create_defaults_on_falsy_witness :
  exists d,
    (post_api_tasks
       body_falsy_fields 5000 5001 id_next sample_tasks).2
    = sample_tasks ++ [d] /\
    d !! "description" = Some (VString "") /\
    d !! "complete" = Some (VBool false).
Proof.
  destruct (create_defaults_on_falsy
              body_falsy_fields 5000 5001 id_next
              sample_tasks ltac:(evaluated) id_next_unused)
    as (d & E & Kd & Kc & _).
  exists d. split; [exact E|]. split; [apply Kd|apply Kc]; evaluated.
Defined.

Lemma create_answers_raw_document_witness :
  exists d,
    post_api_tasks body_milk 5000 5001 id_next sample_tasks
    = (Response 201 (VObject d), sample_tasks ++ [d]) /\
    d !! "_id" = Some (VObjectId id_next) /\
    d !! "id" = None /\
    exists t, (get_api_tasks_id id_next (sample_tasks ++ [d])).1 = Response 200 t /\
              carries_id t.
Proof.
  destruct (create_answers_raw_document body_milk 5000 5001
              id_next sample_tasks ltac:(evaluated) id_next_unused)
    as (d & E & _ & Ki & Kn & _ & G & _).
  exists d. split; [exact E|]. split; [exact Ki|]. split; [exact Kn|].
  exact (G id_next parse_next).
Defined.

(** ** The further properties on [sample_tasks] *)

Lemma malformed_id_rejected_witness :
  put_api_tasks_id "not-a-valid-id" body_milk 4000 sample_tasks
  = (Response 500
       (VObject
          {[ "error" :=
               VString
                 "input must be a 24 character hex string, 12 byte Uint8Array, or an integer" ]}),
     sample_tasks) /\
  delete_api_tasks_id "not-a-valid-id" sample_tasks
  = (Response 500
       (VObject
          {[ "error" :=
               VString
                 "input must be a 24 character hex string, 12 byte Uint8Array, or an integer" ]}),
     sample_tasks).
Proof.
  exact (malformed_id_rejected "not-a-valid-id" _ body_milk 4000 sample_tasks
           parse_malformed).
Defined.

Lemma update_never_inserts_witness :
  put_api_tasks_id id_next body_milk 4000 sample_tasks
  = (Response 404
       (VObject {[ "error" := VString ("Task with ID " +:+ id_next +:+ " not found") ]}),
     sample_tasks).
Proof.
  exact (update_never_inserts id_next id_next body_milk 4000 sample_tasks
           parse_next id_next_unused).
Defined.

Lemma update_keeps_other_fields_witness :
  exists d',
    (put_api_tasks_id id_eggs body_with_id 4000 sample_tasks).2 = [task_milk; d'] /\
    d' !! "createdAt" = task_eggs !! "createdAt" /\
    d' !! "owner" = task_eggs !! "owner".
Proof.
  destruct (update_keeps_other_fields id_eggs id_eggs body_with_id 4000 sample_tasks
              [task_milk] [] task_eggs parse_eggs first_eggs) as (d' & E & K).
  exists d'. split; [exact E|]. split; apply K; by_evaluation.
Defined.

Lemma deleted_task_is_gone_witness :
  get_api_tasks_id id_milk (delete_api_tasks_id id_milk sample_tasks).2
  = (Response 404 (error_body ("Task with ID " +:+ id_milk +:+ " not found")),
     (delete_api_tasks_id id_milk sample_tasks).2) /\
  put_api_tasks_id id_milk body_milk 4000 (delete_api_tasks_id id_milk sample_tasks).2
  = (Response 404 (error_body ("Task with ID " +:+ id_milk +:+ " not found")),
     (delete_api_tasks_id id_milk sample_tasks).2) /\
  (delete_api_tasks_id id_milk (delete_api_tasks_id id_milk sample_tasks).2).2
  = (delete_api_tasks_id id_milk sample_tasks).2.
Proof.
  exact (deleted_task_is_gone id_milk id_milk body_milk 4000 sample_tasks
           parse_milk sample_tasks_unique).
Defined.

Lemma other_tasks_unaffected_witness :
  (get_api_tasks_id id_milk (put_api_tasks_id id_eggs body_dozen 4000 sample_tasks).2).1
  = (get_api_tasks_id id_milk sample_tasks).1 /\
  (get_api_tasks_id id_milk (delete_api_tasks_id id_eggs sample_tasks).2).1
  = (get_api_tasks_id id_milk sample_tasks).1 /\
  (get_api_tasks_id id_milk (post_api_tasks body_milk 5000 5001 id_next sample_tasks).2).1
  = (get_api_tasks_id id_milk sample_tasks).1.
Proof.
  destruct (other_tasks_unaffected id_milk id_milk sample_tasks parse_milk)
    as (U & D & C).
  split; [by apply (U id_eggs id_eggs body_dozen 4000%Z parse_eggs)|].
  split; [by apply (D id_eggs id_eggs parse_eggs)|].
  by apply (C body_milk 5000%Z 5001%Z id_next).
Defined.

Lemma transform_idempotent_witness :
  transformTaskDocument (VObject (<["id" := VString id_milk]> task_milk))
  = inr (VObject (<["id" := VString id_milk]> task_milk)).
Proof.
  apply (transform_idempotent (VObject task_milk)). vm_compute. reflexivity.
Defined.

Lemma transform_needs_identifier_witness :
  transformTaskDocument (VObject task_stray) = inl undefined_access /\
  get_api_tasks VUndefined [task_milk; task_stray; task_eggs]
  = (Response 500
       (VObject
          {[ "error" :=
               VString "Cannot read properties of undefined (reading 'toString')" ]}),
     [task_milk; task_stray; task_eggs]) /\
  transformTaskDocument (VObject task_null) = inl null_access /\
  get_api_tasks VUndefined [task_null; task_stray]
  = (Response 500
       (VObject
          {[ "error" := VString "Cannot read properties of null (reading 'toString')" ]}),
     [task_null; task_stray]).
Proof.
  destruct (transform_needs_identifier task_stray [task_milk] [task_eggs]) as (U & _).
  destruct (transform_needs_identifier task_null [] [task_stray]) as (_ & N).
  destruct U as (E1 & L1); [vm_compute; reflexivity|].
  destruct N as (E2 & L2); [vm_compute; reflexivity|].
  split; [exact E1|]. split; [apply L1; repeat constructor|].
  split; [exact E2|]. apply L2. constructor.
Defined.

Lemma list_filter_partition_witness :
  exists ts_true ts_false,
    get_api_tasks (VString "true") sample_tasks
    = (Response 200 (VArray ts_true), sample_tasks) /\
    get_api_tasks (VString "false") sample_tasks
    = (Response 200 (VArray ts_false), sample_tasks) /\
    length ts_true + length ts_false
    + length (List.filter (fun d => negb (is_boolean (get d "complete"))) sample_tasks)
    = length sample_tasks.
Proof.
  apply (list_filter_partition sample_tasks sample_tasks_keyed).
  repeat constructor.
Defined.

Lemma served_documents_transform_witness :
  exists o,
    task_array !! "_id" = Some (VObjectId o) /\
    transformTaskDocument (VObject task_array)
    = inr (VObject (<["id" := VString (ObjectId_toString o)]> task_array)).
Proof.
  apply (served_documents_transform [PostTask body_array 5000 5001 id_next]).
  vm_compute. apply list_elem_of_In. simpl. auto.
Defined.

Lemma collection_size_witness :
  length (post_api_tasks body_milk 5000 5001 id_next sample_tasks).2
  = length sample_tasks + 1 /\
  (post_api_tasks body_empty_title 5000 5001 id_next sample_tasks).2 = sample_tasks /\
  length sample_tasks = length (delete_api_tasks_id id_milk sample_tasks).2 + 1 /\
  (delete_api_tasks_id id_next sample_tasks).2 = sample_tasks.
Proof.
  destruct (collection_size sample_tasks) as (_ & _ & _ & C & D).
  destruct (C body_milk 5000%Z 5001%Z id_next) as (l & E & _ & K & _).
  destruct (C body_empty_title 5000%Z 5001%Z id_next) as (l' & E' & _ & _ & K').
  destruct (D id_milk) as (_ & _ & R & _).
  destruct (D id_next) as (_ & _ & _ & R').
  split; [rewrite E, length_app, K; [done|vm_compute; reflexivity]|].
  split; [rewrite E', K'; [by rewrite app_nil_r|vm_compute; reflexivity]|].
  split; [apply R|apply R']; vm_compute; reflexivity.
Defined.

Lemma created_task_listed_last_witness :
  exists ts d,
    post_api_tasks body_milk 5000 5001 id_next sample_tasks
    = (Response 201 (VObject d), sample_tasks ++ [d]) /\
    get_api_tasks VUndefined sample_tasks = (Response 200 (VArray ts), sample_tasks) /\
    get_api_tasks VUndefined (sample_tasks ++ [d])
    = (Response 200
         (VArray (ts ++ [VObject (<["id" := VString (ObjectId_toString id_next)]> d)])),
       sample_tasks ++ [d]).
Proof.
  apply (created_task_listed_last body_milk 5000 5001 id_next sample_tasks
           sample_tasks_keyed); [vm_compute; reflexivity|exact id_next_unused].
Defined.

Lemma id_never_stored_witness :
  Forall (fun d => d !! "id" = None)
    (serve [PutTask id_eggs body_with_id 4000;
            PostTask body_with_id 5000 5001 id_next] sample_tasks).
Proof. exact (id_never_stored _ sample_tasks sample_tasks_no_id). Defined.

Lemma create_stores_six_fields_witness :
  exists d,
    post_api_tasks body_with_id 5000 5001 id_next sample_tasks
    = (Response 201 (VObject d), sample_tasks ++ [d]) /\
    dom d
    = ({[ "_id"; "title"; "description"; "complete"; "createdAt"; "updatedAt" ]}
       : gset string).
Proof.
  apply (create_stores_six_fields body_with_id 5000 5001 id_next sample_tasks);
    [vm_compute; reflexivity|exact id_next_unused].
Defined.

Lemma delete_undoes_create_witness :
  delete_api_tasks_id (ObjectId_toString id_next)
    (post_api_tasks body_milk 5000 5001 id_next sample_tasks).2
  = (Response 200 (VObject {[ "message" := VString "Task deleted successfully" ]}),
     sample_tasks).
Proof.
  apply (delete_undoes_create body_milk 5000 5001 id_next sample_tasks);
    [vm_compute; reflexivity|exact id_next_unused|exact parse_next].
Defined.
